(** * AirControlX: a shallow embedding of the air-traffic-control core

    The development follows the C++ sources class by class:
    [Constants.h], [Aircraft.cpp], [Runway.cpp], [Flight.cpp],
    [SpeedMonitor.cpp] and [Airline.cpp].

    Modelling conventions.
    - A [double] is an exact rational ([Q]): rounding, infinities and NaN are
      outside the model.  Every comparison of the source is the same
      comparison on [Q].
    - An [int] is a [Z]; where the source increments one, the two's
      complement wrap-around is written out ([int_wrap]).
    - [std::shared_ptr]/[std::weak_ptr] are addresses ([ptr]) into explicit
      heaps; pointer equality is address equality.  An operation that
      dereferences an address that is not allocated has no result ([None]).
    - Every pseudo-random draw ([std::random_device], [std::mt19937]) is an
      explicit argument; so is the reading of [std::chrono::steady_clock],
      which the operations on the object store take from the store.
    - The model is sequential: [std::lock_guard] acquisitions are not
      represented, a method body is the state transformer it implements. *)

From Stdlib Require Import ZArith QArith Qabs Lqa Ascii String DecimalString.
From stdpp Require Import gmap strings list.

Local Open Scope string_scope.
Local Open Scope nat_scope.
Local Open Scope list_scope.

(** ** Numeric helpers *)

(** [a < b] on doubles. *)
Definition Qltb (a b : Q) : bool := negb (Qle_bool b a).

(** [std::clamp(v, lo, hi)]: [(v < lo) ? lo : (hi < v) ? hi : v]. *)
Definition clamp (v lo hi : Q) : Q :=
  if Qltb v lo then lo else if Qltb hi v then hi else v.

Definition INT_MIN : Z := (- 2 ^ 31)%Z.
Definition INT_MAX : Z := (2 ^ 31 - 1)%Z.

(** Two's complement reduction of an integer to the range of [int]. *)
Definition int_wrap (z : Z) : Z := ((z + 2 ^ 31) mod 2 ^ 32 - 2 ^ 31)%Z.

(** [static_cast<size_t>] of an [int] (64-bit [size_t]). *)
Definition to_size_t (z : Z) : Z := (z mod 2 ^ 64)%Z.

(** Addresses of heap-allocated objects. *)
Definition ptr : Type := nat.

(** ** Constants.h *)

Inductive AircraftType := COMMERCIAL | CARGO | EMERGENCY.

Inductive FlightDirection := NORTH | SOUTH | EAST | WEST.

Inductive RunwayId := RWY_A | RWY_B | RWY_C.

Inductive FlightPhase :=
  | HOLDING | APPROACH | LANDING | TAXI_IN | AT_GATE_ARRIVAL
  | AT_GATE_DEPARTURE | TAXI_OUT | TAKEOFF_ROLL | CLIMB | CRUISE.

#[global] Instance AircraftType_eq_dec : EqDecision AircraftType.
Proof. solve_decision. Defined.

#[global] Instance FlightDirection_eq_dec : EqDecision FlightDirection.
Proof. solve_decision. Defined.

#[global] Instance RunwayId_eq_dec : EqDecision RunwayId.
Proof. solve_decision. Defined.

#[global] Instance FlightPhase_eq_dec : EqDecision FlightPhase.
Proof. solve_decision. Defined.

(** [struct SpeedLimits { double min; double max; }]. *)
Record SpeedLimits := mkLimits { lim_min : Q; lim_max : Q }.

(** A [std::map] with a handful of constant entries is its list of
    entries; [map_find] is [std::map::find] ([None] for [end()]). *)
Fixpoint map_find {K V} `{EqDecision K} (k : K) (m : list (K * V)) : option V :=
  match m with
  | [] => None
  | (k', v) :: m' => if decide (k = k') then Some v else map_find k m'
  end.

Definition FLIGHT_GENERATION_INTERVAL : list (FlightDirection * Q) :=
  [ (NORTH, 180%Q); (SOUTH, 120%Q); (EAST, 150%Q); (WEST, 240%Q) ].

Definition EMERGENCY_PROBABILITY : list (FlightDirection * Q) :=
  [ (NORTH, 10 # 100); (SOUTH, 5 # 100); (EAST, 15 # 100); (WEST, 20 # 100) ].

Definition SPEED_LIMITS : list (FlightPhase * SpeedLimits) :=
  [ (HOLDING, mkLimits 400 600);
    (APPROACH, mkLimits 240 290);
    (LANDING, mkLimits 30 240);
    (TAXI_IN, mkLimits 15 30);
    (AT_GATE_ARRIVAL, mkLimits 0 5);
    (AT_GATE_DEPARTURE, mkLimits 0 5);
    (TAXI_OUT, mkLimits 15 30);
    (TAKEOFF_ROLL, mkLimits 0 290);
    (CLIMB, mkLimits 250 463);
    (CRUISE, mkLimits 800 900) ].

(** The contents of a [std::stringstream]: the literal text and the values
    streamed into it, in order.  How a double or an enumerator is rendered
    as characters is not modelled ([FlightPhaseToString] is declared in
    [Constants.h] only). *)
Inductive piece :=
  | Str (s : string)
  | Fixed1 (x : Q)              (* a double under [std::fixed], precision 1 *)
  | PhaseName (p : FlightPhase) (* [FlightPhaseToString(p)] *).

Definition text : Type := list piece.

(** ** Aircraft.cpp *)

Module Aircraft.

Record t := mk {
  m_id : string;
  m_type : AircraftType;
  m_direction : FlightDirection;
  (* the back-pointer to the airline is only ever used to read the
     airline's immutable name; [None] is the null pointer *)
  m_airline : option string;
  m_currentPhase : FlightPhase;
  m_currentSpeed : Q;
  m_assignedRunway : option RunwayId;
  m_hasGroundFault : bool;
  m_activeAVNs : list text
}.

Definition with_phase (p : FlightPhase) (a : t) : t :=
  mk (m_id a) (m_type a) (m_direction a) (m_airline a) p (m_currentSpeed a)
     (m_assignedRunway a) (m_hasGroundFault a) (m_activeAVNs a).

Definition with_speed (v : Q) (a : t) : t :=
  mk (m_id a) (m_type a) (m_direction a) (m_airline a) (m_currentPhase a) v
     (m_assignedRunway a) (m_hasGroundFault a) (m_activeAVNs a).

Definition with_runway (r : option RunwayId) (a : t) : t :=
  mk (m_id a) (m_type a) (m_direction a) (m_airline a) (m_currentPhase a)
     (m_currentSpeed a) r (m_hasGroundFault a) (m_activeAVNs a).

Definition with_fault (b : bool) (a : t) : t :=
  mk (m_id a) (m_type a) (m_direction a) (m_airline a) (m_currentPhase a)
     (m_currentSpeed a) (m_assignedRunway a) b (m_activeAVNs a).

Definition with_avns (l : list text) (a : t) : t :=
  mk (m_id a) (m_type a) (m_direction a) (m_airline a) (m_currentPhase a)
     (m_currentSpeed a) (m_assignedRunway a) (m_hasGroundFault a) l.

Definition isArrival (a : t) : bool :=
  bool_decide (m_direction a = NORTH) || bool_decide (m_direction a = SOUTH).

Definition assignRunway (runwayId : RunwayId) (a : t) : t :=
  with_runway (Some runwayId) a.

Definition getNextPhase (a : t) : FlightPhase :=
  match m_currentPhase a with
  | HOLDING => APPROACH
  | APPROACH => LANDING
  | LANDING => TAXI_IN
  | TAXI_IN => AT_GATE_ARRIVAL
  | AT_GATE_DEPARTURE => TAXI_OUT
  | TAXI_OUT => TAKEOFF_ROLL
  | TAKEOFF_ROLL => CLIMB
  | CLIMB => CRUISE
  | AT_GATE_ARRIVAL | CRUISE => m_currentPhase a
  end.

Definition isValidTransition (nextPhase : FlightPhase) (a : t) : bool :=
  match m_currentPhase a with
  | HOLDING => bool_decide (nextPhase = APPROACH)
  | APPROACH => bool_decide (nextPhase = LANDING)
  | LANDING => bool_decide (nextPhase = TAXI_IN)
  | TAXI_IN => bool_decide (nextPhase = AT_GATE_ARRIVAL)
  | AT_GATE_ARRIVAL => false
  | AT_GATE_DEPARTURE => bool_decide (nextPhase = TAXI_OUT)
  | TAXI_OUT => bool_decide (nextPhase = TAKEOFF_ROLL)
  | TAKEOFF_ROLL => bool_decide (nextPhase = CLIMB)
  | CLIMB => bool_decide (nextPhase = CRUISE)
  | CRUISE => false
  end.

(** [u] is the canonical draw in [0,1) that
    [std::uniform_real_distribution(min, max)] scales to the range. *)
Definition generateRandomSpeedForPhase (u : Q) (phase : FlightPhase) : Q :=
  match map_find phase SPEED_LIMITS with
  | None => 0
  | Some limits => lim_min limits + u * (lim_max limits - lim_min limits)
  end.

Definition transitionToNextPhase (u : Q) (a : t) : bool * t :=
  let nextPhase := getNextPhase a in
  if isValidTransition nextPhase a then
    (true, with_speed (generateRandomSpeedForPhase u nextPhase)
                      (with_phase nextPhase a))
  else (false, a).

Definition updateSpeed (speedDelta : Q) (a : t) : bool * t :=
  let newSpeed := (m_currentSpeed a + speedDelta)%Q in
  let newSpeed :=
    match map_find (m_currentPhase a) SPEED_LIMITS with
    | Some limits => clamp newSpeed (lim_min limits) (lim_max limits)
    | None => newSpeed
    end in
  (true, with_speed newSpeed a).

Definition setSpeed (newSpeed : Q) (a : t) : bool * t :=
  (true, with_speed newSpeed a).

Definition isSpeedValid (a : t) : bool :=
  match map_find (m_currentPhase a) SPEED_LIMITS with
  | None => false
  | Some limits =>
      Qle_bool (lim_min limits) (m_currentSpeed a)
      && Qle_bool (m_currentSpeed a) (lim_max limits)
  end.

Definition issueAVN (reason : text) (a : t) : t :=
  with_avns (m_activeAVNs a ++ [reason]) a.

Definition hasActiveAVN (a : t) : bool :=
  match m_activeAVNs a with [] => false | _ => true end.

Definition isGroundPhase (p : FlightPhase) : bool :=
  match p with
  | TAXI_IN | AT_GATE_ARRIVAL | AT_GATE_DEPARTURE | TAXI_OUT => true
  | _ => false
  end.

(** [draw] is the uniform sample in [0,1). *)
Definition simulateGroundFault (draw : Q) (a : t) : bool * t :=
  if isGroundPhase (m_currentPhase a) && Qltb draw (5 # 100)
  then (true, with_fault true a)
  else (false, a).

(** [speedDelta] is the sample of the normal distribution, [faultDraw]
    the uniform sample (drawn only on the branch that uses it). *)
Definition update (deltaTime speedDelta faultDraw : Q) (a : t) : t :=
  let a := with_speed (m_currentSpeed a + speedDelta)%Q a in
  if isGroundPhase (m_currentPhase a) && negb (m_hasGroundFault a) then
    if Qltb faultDraw ((1 # 1000) * deltaTime) then with_fault true a else a
  else a.

Definition setInitialPhase (direction : FlightDirection) : FlightPhase :=
  if bool_decide (direction = NORTH) || bool_decide (direction = SOUTH)
  then HOLDING else AT_GATE_DEPARTURE.

(** The constructor; [u] is the draw of [setInitialSpeed]. *)
Definition new (id : string) (type : AircraftType)
    (direction : FlightDirection) (airline : option string) (u : Q) : t :=
  let phase := setInitialPhase direction in
  mk id type direction airline phase (generateRandomSpeedForPhase u phase)
     None false [].

(** The public mutating operations, for traces of calls; each carries
    its arguments and the draws it may consume. *)
Inductive call :=
  | AssignRunway (runwayId : RunwayId)
  | TransitionToNextPhase (u : Q)
  | UpdateSpeed (speedDelta : Q)
  | SetSpeed (newSpeed : Q)
  | IssueAVN (reason : text)
  | SimulateGroundFault (draw : Q)
  | Update (deltaTime speedDelta faultDraw : Q).

Definition step (c : call) (a : t) : t :=
  match c with
  | AssignRunway runwayId => assignRunway runwayId a
  | TransitionToNextPhase u => (transitionToNextPhase u a).2
  | UpdateSpeed speedDelta => (updateSpeed speedDelta a).2
  | SetSpeed newSpeed => (setSpeed newSpeed a).2
  | IssueAVN reason => issueAVN reason a
  | SimulateGroundFault draw => (simulateGroundFault draw a).2
  | Update deltaTime speedDelta faultDraw =>
      update deltaTime speedDelta faultDraw a
  end.

Definition run (cs : list call) (a : t) : t := foldl (λ a c, step c a) a cs.

(** [n] calls of [transitionToNextPhase], with the results they return. *)
Fixpoint transitions (us : list Q) (a : t) : list bool * t :=
  match us with
  | [] => ([], a)
  | u :: us' =>
      let '(ok, a') := transitionToNextPhase u a in
      let '(oks, a'') := transitions us' a' in
      (ok :: oks, a'')
  end.

End Aircraft.

(** The aircraft heap: the objects every [std::shared_ptr<Aircraft>]
    points to. *)
Abbreviation aircraft_heap := (gmap ptr Aircraft.t).

(** ** Runway.cpp *)

Module Runway.

Inductive Status := AVAILABLE | IN_USE | MAINTENANCE | WEATHER_CLOSED.

#[global] Instance Status_eq_dec : EqDecision Status.
Proof. solve_decision. Defined.

Record t := mk {
  m_id : RunwayId;
  m_status : Status;
  m_assignedAircraft : option ptr;
  m_usageCount : Z;
  m_totalUsageTime : Q;
  (* a [steady_clock::time_point], in ticks of the clock *)
  m_lastAssignmentTime : Z
}.

(** Ticks of [std::chrono::steady_clock] per second (nanoseconds). *)
Definition ticks_per_second : Z := 1000000000.

(** [duration_cast<seconds>(now - since).count()]: truncation toward
    zero. *)
Definition seconds_between (now since : Z) : Z :=
  ((now - since) ÷ ticks_per_second)%Z.

(** The constructor; [now] is the clock reading. *)
Definition new (id : RunwayId) (now : Z) : t :=
  mk id AVAILABLE None 0 0 now.

Definition isAvailable (r : t) : bool :=
  bool_decide (m_status r = AVAILABLE).

Definition isValidRunwayForDirection (id : RunwayId)
    (direction : FlightDirection) : bool :=
  match id with
  | RWY_A => bool_decide (direction = NORTH) || bool_decide (direction = SOUTH)
  | RWY_B => bool_decide (direction = EAST) || bool_decide (direction = WEST)
  | RWY_C => true
  end.

Definition isValidRunwayForAircraftType (id : RunwayId)
    (type : AircraftType) : bool :=
  match id with
  | RWY_A | RWY_B => true
  | RWY_C => bool_decide (type = CARGO) || bool_decide (type = EMERGENCY)
  end.

Definition canUseForDirection (direction : FlightDirection) (r : t) : bool :=
  isValidRunwayForDirection (m_id r) direction.

Definition canUseForAircraftType (type : AircraftType) (r : t) : bool :=
  isValidRunwayForAircraftType (m_id r) type.

(** [assignAircraft] updates the receiver and, through the pointer, the
    aircraft ([aircraft->assignRunway(m_id)]). *)
Definition assignAircraft (now : Z) (aircraft : option ptr) (r : t)
    (h : aircraft_heap) : option (bool * t * aircraft_heap) :=
  if negb (bool_decide (m_status r = AVAILABLE)) then Some (false, r, h)
  else
    match aircraft with
    | None => Some (false, r, h)
    | Some p =>
        match h !! p with
        | None => None
        | Some a =>
            if negb (canUseForDirection (Aircraft.m_direction a) r)
            then Some (false, r, h)
            else if negb (canUseForAircraftType (Aircraft.m_type a) r)
            then Some (false, r, h)
            else
              Some (true,
                    mk (m_id r) IN_USE (Some p)
                       (int_wrap (m_usageCount r + 1))
                       (m_totalUsageTime r) now,
                    <[p := Aircraft.assignRunway (m_id r) a]> h)
        end
    end.

Definition releaseAircraft (now : Z) (aircraft : option ptr) (r : t)
    : bool * t :=
  if negb (bool_decide (m_status r = IN_USE)) then (false, r)
  else
    match m_assignedAircraft r with
    | None => (false, r)
    | Some p =>
        if negb (bool_decide (Some p = aircraft)) then (false, r)
        else
          let duration := seconds_between now (m_lastAssignmentTime r) in
          (true,
           mk (m_id r) AVAILABLE None (m_usageCount r)
              (m_totalUsageTime r + inject_Z duration)
              (m_lastAssignmentTime r))
    end.

Definition setStatus (now : Z) (status : Status) (r : t) : bool * t :=
  let total :=
    if bool_decide (m_status r = IN_USE)
       && (bool_decide (status = MAINTENANCE)
           || bool_decide (status = WEATHER_CLOSED))
    then
      match m_assignedAircraft r with
      | Some _ =>
          (m_totalUsageTime r
           + inject_Z (seconds_between now (m_lastAssignmentTime r)))%Q
      | None => m_totalUsageTime r
      end
    else m_totalUsageTime r in
  let assigned :=
    if negb (bool_decide (status = IN_USE)) then None
    else m_assignedAircraft r in
  (true,
   mk (m_id r) status assigned (m_usageCount r) total
      (m_lastAssignmentTime r)).

Definition getTotalUsageTime (now : Z) (r : t) : Q :=
  if bool_decide (m_status r = IN_USE)
  then match m_assignedAircraft r with
       | Some _ =>
           m_totalUsageTime r
           + inject_Z (seconds_between now (m_lastAssignmentTime r))
       | None => m_totalUsageTime r
       end
  else m_totalUsageTime r.

(** [update] has an empty body. *)
Definition update (deltaTime : Q) (r : t) : t := r.

(** The public mutating operations, for traces of calls.  The clock
    reading of each call travels with it. *)
Inductive call :=
  | AssignAircraft (now : Z) (aircraft : option ptr)
  | ReleaseAircraft (now : Z) (aircraft : option ptr)
  | SetStatus (now : Z) (status : Status).

Definition step (c : call) (r : t) (h : aircraft_heap)
    : option (bool * t * aircraft_heap) :=
  match c with
  | AssignAircraft now a => assignAircraft now a r h
  | ReleaseAircraft now a =>
      let '(b, r') := releaseAircraft now a r in Some (b, r', h)
  | SetStatus now s =>
      let '(b, r') := setStatus now s r in Some (b, r', h)
  end.

Fixpoint run (cs : list call) (r : t) (h : aircraft_heap)
    : option (t * aircraft_heap) :=
  match cs with
  | [] => Some (r, h)
  | c :: cs' =>
      match step c r h with
      | Some (_, r', h') => run cs' r' h'
      | None => None
      end
  end.

(** [run] with the result of every call logged beside it. *)
Fixpoint runLog (cs : list call) (r : t) (h : aircraft_heap)
    : option (list (call * bool) * t * aircraft_heap) :=
  match cs with
  | [] => Some ([], r, h)
  | c :: cs' =>
      match step c r h with
      | Some (ok, r', h') =>
          match runLog cs' r' h' with
          | Some (log, r'', h'') => Some ((c, ok) :: log, r'', h'')
          | None => None
          end
      | None => None
      end
  end.

(** The clock reading a call is made at. *)
Definition call_time (c : call) : Z :=
  match c with
  | AssignAircraft now _ | ReleaseAircraft now _ | SetStatus now _ => now
  end.

End Runway.

(** ** The object store

    Flights reach their aircraft through a [std::shared_ptr] and their
    runway through a [std::weak_ptr]; both objects are shared with the
    controller and the airline.  [steady_clock] is the value the next
    reading of [std::chrono::steady_clock::now()] returns. *)

Record World := mkWorld {
  aircrafts : gmap ptr Aircraft.t;
  runways : gmap ptr Runway.t;
  steady_clock : Z
}.

(** Computations over the store; [None] is a dereference of an address
    that is not allocated (or of the null pointer). *)
Definition M (A : Type) : Type := World → option (A * World).

#[global] Instance M_ret : MRet M := λ A x w, Some (x, w).

#[global] Instance M_bind : MBind M :=
  λ A B k c w, match c w with
               | Some (x, w') => k x w'
               | None => None
               end.

Definition derefAircraft (p : option ptr) : M Aircraft.t :=
  λ w, match p with
       | Some p => match aircrafts w !! p with
                   | Some a => Some (a, w)
                   | None => None
                   end
       | None => None
       end.

Definition storeAircraft (p : option ptr) (a : Aircraft.t) : M unit :=
  λ w, match p with
       | Some p =>
           Some (tt, mkWorld (<[p := a]> (aircrafts w)) (runways w)
                             (steady_clock w))
       | None => None
       end.

Definition derefRunway (p : option ptr) : M Runway.t :=
  λ w, match p with
       | Some p => match runways w !! p with
                   | Some r => Some (r, w)
                   | None => None
                   end
       | None => None
       end.

(** [std::weak_ptr::lock]: the address if the runway is still alive. *)
Definition lock (wp : option ptr) : M (option ptr) :=
  λ w, match wp with
       | Some p => match runways w !! p with
                   | Some _ => Some (Some p, w)
                   | None => Some (None, w)
                   end
       | None => Some (None, w)
       end.

(** [runway->releaseAircraft(aircraft)] through a pointer. *)
Definition Runway_releaseAircraft (rp : ptr) (aircraft : option ptr) : M bool :=
  λ w, match runways w !! rp with
       | None => None
       | Some r =>
           let '(b, r') := Runway.releaseAircraft (steady_clock w) aircraft r in
           Some (b, mkWorld (aircrafts w) (<[rp := r']> (runways w))
                            (steady_clock w))
       end.

(** [runway->assignAircraft(aircraft)] through a pointer. *)
Definition Runway_assignAircraft (rp : ptr) (aircraft : option ptr) : M bool :=
  λ w, match runways w !! rp with
       | None => None
       | Some r =>
           match Runway.assignAircraft (steady_clock w) aircraft r (aircrafts w) with
           | None => None
           | Some (b, r', h') =>
               Some (b, mkWorld h' (<[rp := r']> (runways w)) (steady_clock w))
           end
       end.

(** ** Flight.cpp *)

Module Flight.

Inductive Status :=
  SCHEDULED | ACTIVE | COMPLETED | CANCELED | DIVERTED | EMERGENCY.

#[global] Instance Status_eq_dec : EqDecision Status.
Proof. solve_decision. Defined.

(** The bodies of the lambdas stored in a flight plan.  Every lambda of
    the four plan builders is one of these three. *)
Inductive Operation :=
  | Transition             (* [m_aircraft->transitionToNextPhase()] *)
  | ReleaseThenTransition  (* [releaseRunway();] then the transition *)
  | Complete               (* [this->complete()] *).

Record FlightPlanStep := mkStep {
  operation : Operation;
  relativeTimeOffset : Q
}.

Record t := mk {
  m_id : string;
  m_aircraft : option ptr;
  m_status : Status;
  m_isEmergency : bool;
  m_scheduledTime : Q;
  m_activationTime : Q;
  m_estimatedCompletionTime : Q;
  m_statusReason : string;
  m_assignedRunway : option ptr;
  m_flightPlan : list FlightPlanStep;
  m_currentPlanStep : nat
}.

Definition with_id (x : string) (f : t) : t :=
  mk x (m_aircraft f) (m_status f) (m_isEmergency f) (m_scheduledTime f)
     (m_activationTime f) (m_estimatedCompletionTime f) (m_statusReason f)
     (m_assignedRunway f) (m_flightPlan f) (m_currentPlanStep f).

Definition with_status (x : Status) (f : t) : t :=
  mk (m_id f) (m_aircraft f) x (m_isEmergency f) (m_scheduledTime f)
     (m_activationTime f) (m_estimatedCompletionTime f) (m_statusReason f)
     (m_assignedRunway f) (m_flightPlan f) (m_currentPlanStep f).

Definition with_isEmergency (x : bool) (f : t) : t :=
  mk (m_id f) (m_aircraft f) (m_status f) x (m_scheduledTime f)
     (m_activationTime f) (m_estimatedCompletionTime f) (m_statusReason f)
     (m_assignedRunway f) (m_flightPlan f) (m_currentPlanStep f).

Definition with_activationTime (x : Q) (f : t) : t :=
  mk (m_id f) (m_aircraft f) (m_status f) (m_isEmergency f)
     (m_scheduledTime f) x (m_estimatedCompletionTime f) (m_statusReason f)
     (m_assignedRunway f) (m_flightPlan f) (m_currentPlanStep f).

Definition with_estimatedCompletionTime (x : Q) (f : t) : t :=
  mk (m_id f) (m_aircraft f) (m_status f) (m_isEmergency f)
     (m_scheduledTime f) (m_activationTime f) x (m_statusReason f)
     (m_assignedRunway f) (m_flightPlan f) (m_currentPlanStep f).

Definition with_statusReason (x : string) (f : t) : t :=
  mk (m_id f) (m_aircraft f) (m_status f) (m_isEmergency f)
     (m_scheduledTime f) (m_activationTime f) (m_estimatedCompletionTime f)
     x (m_assignedRunway f) (m_flightPlan f) (m_currentPlanStep f).

Definition with_assignedRunway (x : option ptr) (f : t) : t :=
  mk (m_id f) (m_aircraft f) (m_status f) (m_isEmergency f)
     (m_scheduledTime f) (m_activationTime f) (m_estimatedCompletionTime f)
     (m_statusReason f) x (m_flightPlan f) (m_currentPlanStep f).

Definition with_plan (x : list FlightPlanStep) (n : nat) (f : t) : t :=
  mk (m_id f) (m_aircraft f) (m_status f) (m_isEmergency f)
     (m_scheduledTime f) (m_activationTime f) (m_estimatedCompletionTime f)
     (m_statusReason f) (m_assignedRunway f) x n.

Definition isValidStatusTransition (newStatus : Status) (f : t) : bool :=
  match m_status f with
  | SCHEDULED =>
      bool_decide (newStatus = ACTIVE) || bool_decide (newStatus = EMERGENCY)
      || bool_decide (newStatus = CANCELED)
  | ACTIVE =>
      bool_decide (newStatus = COMPLETED) || bool_decide (newStatus = CANCELED)
      || bool_decide (newStatus = DIVERTED)
      || bool_decide (newStatus = EMERGENCY)
  | EMERGENCY =>
      bool_decide (newStatus = COMPLETED) || bool_decide (newStatus = CANCELED)
      || bool_decide (newStatus = DIVERTED)
  | COMPLETED | CANCELED | DIVERTED => false
  end.

Definition isLive (f : t) : bool :=
  bool_decide (m_status f = ACTIVE) || bool_decide (m_status f = EMERGENCY).

Definition calculateEstimatedCompletionTime (f : t) : t :=
  match last (m_flightPlan f) with
  | None => with_estimatedCompletionTime 0 f
  | Some s =>
      let lastStepTime := relativeTimeOffset s in
      if isLive f then
        if Qltb 0 (m_activationTime f)
        then with_estimatedCompletionTime (m_activationTime f + lastStepTime) f
        else f
      else with_estimatedCompletionTime (m_scheduledTime f + lastStepTime) f
  end.

Definition arrivalPlan : list FlightPlanStep :=
  [ mkStep Transition 30; mkStep Transition 60;
    mkStep ReleaseThenTransition 90; mkStep Transition 120;
    mkStep Complete 150 ].

Definition departurePlan : list FlightPlanStep :=
  [ mkStep Transition 30; mkStep Transition 60; mkStep Transition 75;
    mkStep ReleaseThenTransition 90; mkStep Complete 120 ].

Definition emergencyArrivalPlan : list FlightPlanStep :=
  [ mkStep Transition 15; mkStep Transition 30;
    mkStep ReleaseThenTransition 45; mkStep Transition 60;
    mkStep Complete 75 ].

Definition emergencyDeparturePlan : list FlightPlanStep :=
  [ mkStep Transition 15; mkStep Transition 30; mkStep Transition (75 # 2);
    mkStep ReleaseThenTransition 45; mkStep Complete 60 ].

Definition createArrivalFlightPlan (f : t) : bool * t :=
  match m_aircraft f with
  | None => (false, f)
  | Some _ => (true, with_plan arrivalPlan 0 f)
  end.

Definition createDepartureFlightPlan (f : t) : bool * t :=
  match m_aircraft f with
  | None => (false, f)
  | Some _ => (true, with_plan departurePlan 0 f)
  end.

Definition createEmergencyFlightPlan (f : t) : M (bool * t) :=
  match m_aircraft f with
  | None => mret (false, f)
  | Some _ =>
      a ← derefAircraft (m_aircraft f);
      if Aircraft.isArrival a
      then mret (true, with_plan emergencyArrivalPlan 0 f)
      else mret (true, with_plan emergencyDeparturePlan 0 f)
  end.

Definition createFlightPlan (f : t) : M (bool * t) :=
  let f := with_plan [] 0 f in
  match m_aircraft f with
  | None => mret (false, f)
  | Some _ =>
      if m_isEmergency f then createEmergencyFlightPlan f
      else
        a ← derefAircraft (m_aircraft f);
        if Aircraft.isArrival a
        then mret (createArrivalFlightPlan f)
        else mret (createDepartureFlightPlan f)
  end.

(** The constructor. *)
Definition new (aircraft : option ptr) (scheduledTime : Q)
    (isEmergency : bool) : M t :=
  let f := mk "" aircraft SCHEDULED isEmergency scheduledTime 0 0 "" None [] 0 in
  match aircraft with
  | None => mret f
  | Some _ =>
      a ← derefAircraft aircraft;
      '(_, f) ← createFlightPlan (with_id (Aircraft.m_id a) f);
      mret (calculateEstimatedCompletionTime f)
  end.

Definition setEmergency (isEmergency : bool) (f : t) : M t :=
  if bool_decide (m_status f = SCHEDULED) || bool_decide (m_status f = ACTIVE)
  then
    let f := with_isEmergency isEmergency f in
    if isEmergency && negb (bool_decide (m_status f = EMERGENCY)) then
      '(_, f) ← createEmergencyFlightPlan (with_status EMERGENCY f);
      mret (calculateEstimatedCompletionTime f)
    else if negb isEmergency && bool_decide (m_status f = EMERGENCY) then
      '(_, f) ← createFlightPlan (with_status ACTIVE f);
      mret (calculateEstimatedCompletionTime f)
    else mret f
  else mret f.

Definition assignRunway (runway : option ptr) (f : t) : M (bool * t) :=
  if negb (bool_decide (m_status f = SCHEDULED))
     && negb (bool_decide (m_status f = ACTIVE))
     && negb (bool_decide (m_status f = EMERGENCY))
  then mret (false, f)
  else
    existingRunway ← lock (m_assignedRunway f);
    match existingRunway with
    | Some _ => mret (false, f)
    | None =>
        r ← derefRunway runway;
        a ← derefAircraft (m_aircraft f);
        if negb (Runway.canUseForDirection (Aircraft.m_direction a) r)
           || negb (Runway.canUseForAircraftType (Aircraft.m_type a) r)
        then mret (false, f)
        else
          match runway with
          | None => λ _, None
          | Some rp =>
              ok ← Runway_assignAircraft rp (m_aircraft f);
              if negb ok then mret (false, f)
              else mret (true, with_assignedRunway runway f)
          end
    end.

Definition releaseRunway (f : t) : M (bool * t) :=
  runway ← lock (m_assignedRunway f);
  match runway with
  | None => mret (false, f)
  | Some rp =>
      ok ← Runway_releaseAircraft rp (m_aircraft f);
      if negb ok then mret (false, f)
      else mret (true, with_assignedRunway None f)
  end.

Definition activate (currentTime : Q) (f : t) : bool * t :=
  if negb (isValidStatusTransition ACTIVE f) then (false, f)
  else
    let f := with_status (if m_isEmergency f then EMERGENCY else ACTIVE) f in
    let f := with_activationTime currentTime f in
    (true, calculateEstimatedCompletionTime f).

(** "Release the runway if one is assigned": shared by [complete],
    [cancel], [divert] and [handleGroundFault]. *)
Definition releaseIfAssigned (f : t) : M t :=
  runway ← lock (m_assignedRunway f);
  match runway with
  | Some rp =>
      _ ← Runway_releaseAircraft rp (m_aircraft f);
      mret (with_assignedRunway None f)
  | None => mret f
  end.

Definition complete (f : t) : M (bool * t) :=
  if negb (isValidStatusTransition COMPLETED f) then mret (false, f)
  else
    f ← releaseIfAssigned f;
    mret (true, with_status COMPLETED f).

Definition cancel (reason : string) (f : t) : M (bool * t) :=
  if negb (isValidStatusTransition CANCELED f) then mret (false, f)
  else
    f ← releaseIfAssigned f;
    mret (true, with_statusReason reason (with_status CANCELED f)).

Definition divert (reason : string) (f : t) : M (bool * t) :=
  if negb (isValidStatusTransition DIVERTED f) then mret (false, f)
  else
    f ← releaseIfAssigned f;
    mret (true, with_statusReason reason (with_status DIVERTED f)).

Definition isReadyForNextPhase (currentTime : Q) (f : t) : bool :=
  if negb (isLive f) then false
  else
    match m_flightPlan f !! m_currentPlanStep f with
    | None => false
    | Some s =>
        let elapsedTime := (currentTime - m_activationTime f)%Q in
        Qle_bool (relativeTimeOffset s) elapsedTime
    end.

(** [m_aircraft->transitionToNextPhase()]; [u] is the draw of the new
    speed. *)
Definition aircraftTransition (u : Q) (f : t) : M bool :=
  a ← derefAircraft (m_aircraft f);
  let '(ok, a') := Aircraft.transitionToNextPhase u a in
  _ ← storeAircraft (m_aircraft f) a';
  mret ok.

Definition transitionToNextPhase (u : Q) (f : t) : M bool :=
  if negb (isLive f) then mret false else aircraftTransition u f.

Definition handleGroundFault (f : t) : M (bool * t) :=
  match m_aircraft f with
  | None => mret (false, f)
  | Some _ =>
      a ← derefAircraft (m_aircraft f);
      if Aircraft.m_hasGroundFault a then
        f ← releaseIfAssigned f;
        mret (true,
              with_statusReason "Ground fault detected"
                (with_status CANCELED f))
      else mret (false, f)
  end.

(** Calling the [std::function] of a plan step. *)
Definition call (op : Operation) (u : Q) (f : t) : M (bool * t) :=
  match op with
  | Transition =>
      ok ← aircraftTransition u f; mret (ok, f)
  | ReleaseThenTransition =>
      '(_, f) ← releaseRunway f;
      ok ← aircraftTransition u f; mret (ok, f)
  | Complete => complete f
  end.

Definition executeFlightPlanStep (currentTime u : Q) (f : t) : M (bool * t) :=
  match m_flightPlan f !! m_currentPlanStep f with
  | None => mret (false, f)
  | Some s =>
      let elapsedTime := (currentTime - m_activationTime f)%Q in
      if Qltb elapsedTime (relativeTimeOffset s) then mret (false, f)
      else
        '(success, f) ← call (operation s) u f;
        let f := with_plan (m_flightPlan f) (S (m_currentPlanStep f)) f in
        if bool_decide (length (m_flightPlan f) ≤ m_currentPlanStep f)%nat then
          '(_, f) ← complete f;
          mret (success, f)
        else mret (success, f)
  end.

(** The draws one [update] may consume: the speed perturbation and the
    fault sample of [Aircraft::update], and the speed sample of a phase
    transition. *)
Record Draws := mkDraws { speedDelta : Q; faultDraw : Q; phaseSpeed : Q }.

Definition update (deltaTime currentTime : Q) (d : Draws) (f : t) : M t :=
  if negb (isLive f) then mret f
  else
    let continue : M t :=
      if isReadyForNextPhase currentTime f then
        '(_, f) ← executeFlightPlanStep currentTime (phaseSpeed d) f;
        mret f
      else mret f in
    match m_aircraft f with
    | None => continue
    | Some _ =>
        a ← derefAircraft (m_aircraft f);
        let a := Aircraft.update deltaTime (speedDelta d) (faultDraw d) a in
        _ ← storeAircraft (m_aircraft f) a;
        if Aircraft.m_hasGroundFault a then
          '(_, f) ← handleGroundFault f;
          mret f
        else continue
    end.

Definition getDelay (currentTime : Q) (f : t) : Q :=
  if bool_decide (m_status f = SCHEDULED) then
    if Qltb (m_scheduledTime f) currentTime
    then currentTime - m_scheduledTime f
    else 0
  else if Qltb 0 (m_activationTime f)
  then m_activationTime f - m_scheduledTime f
  else 0.

End Flight.

(** ** SpeedMonitor.cpp *)

#[global] Instance FlightPhase_countable : Countable FlightPhase.
Proof.
  refine (inj_countable'
    (λ p, match p with
          | HOLDING => 0 | APPROACH => 1 | LANDING => 2 | TAXI_IN => 3
          | AT_GATE_ARRIVAL => 4 | AT_GATE_DEPARTURE => 5 | TAXI_OUT => 6
          | TAKEOFF_ROLL => 7 | CLIMB => 8 | CRUISE => 9
          end)
    (λ n, match n with
          | 0 => HOLDING | 1 => APPROACH | 2 => LANDING | 3 => TAXI_IN
          | 4 => AT_GATE_ARRIVAL | 5 => AT_GATE_DEPARTURE | 6 => TAXI_OUT
          | 7 => TAKEOFF_ROLL | 8 => CLIMB | _ => CRUISE
          end) _).
  by intros [].
Defined.

Module SpeedMonitor.

Record ViolationRecord := mkViolation {
  aircraftId : string;
  airlineName : string;
  phase : FlightPhase;
  actualSpeed : Q;
  minAllowedSpeed : Q;
  maxAllowedSpeed : Q;
  timestamp : Q;
  description : text
}.

Record t := mk {
  m_speedHistory : gmap string (list Q);
  m_violations : list ViolationRecord;
  m_violationsByAirline : gmap string Z;
  m_violationsByPhase : gmap FlightPhase Z
}.

(** The constructor. *)
Definition new : t := mk ∅ [] ∅ ∅.

Definition getSpeedLimitsForPhase (phase : FlightPhase) : SpeedLimits :=
  match map_find phase SPEED_LIMITS with
  | Some limits => limits
  | None => mkLimits 0 0
  end.

Definition MAX_HISTORY : nat := 10.

Definition recordSpeedDataPoint (aircraftId : string) (speed : Q) (m : t) : t :=
  let history := default [] (m_speedHistory m !! aircraftId) ++ [speed] in
  let history :=
    if bool_decide (MAX_HISTORY < length history)%nat then tail history
    else history in
  mk (<[aircraftId := history]> (m_speedHistory m)) (m_violations m)
     (m_violationsByAirline m) (m_violationsByPhase m).

(** The loop [for i = 1 .. size-1: totalChange += |h[i] - h[i-1]|]. *)
Fixpoint totalChange (history : list Q) : Q :=
  match history with
  | x :: (y :: _) as rest => (Qabs (y - x) + totalChange rest)%Q
  | _ => 0
  end.

Definition RAPID_CHANGE_THRESHOLD : Q := 50.

Definition detectRapidSpeedChanges (aircraftId : string) (m : t) : bool :=
  match m_speedHistory m !! aircraftId with
  | None => false
  | Some history =>
      if bool_decide (length history < 3)%nat then false
      else
        let avgChange :=
          (totalChange history
           / inject_Z (Z.of_nat (length history - 1)))%Q in
        Qltb RAPID_CHANGE_THRESHOLD avgChange
  end.

Definition generateViolationDescription (a : Aircraft.t)
    (actualSpeed minAllowedSpeed maxAllowedSpeed : Q) : text :=
  let phase := Aircraft.m_currentPhase a in
  if Qltb actualSpeed minAllowedSpeed then
    [ Str "Speed too low: "; Fixed1 actualSpeed; Str " km/h (minimum: ";
      Fixed1 minAllowedSpeed; Str " km/h) during "; PhaseName phase;
      Str " phase" ]
  else if Qltb maxAllowedSpeed actualSpeed then
    [ Str "Speed too high: "; Fixed1 actualSpeed; Str " km/h (maximum: ";
      Fixed1 maxAllowedSpeed; Str " km/h) during "; PhaseName phase;
      Str " phase" ]
  else
    [ Str "Unstable speed pattern detected during "; PhaseName phase;
      Str " phase" ].

(** [map[key]++] on an [unordered_map<_, int>]. *)
Definition bump `{Countable K} (k : K) (m : gmap K Z) : gmap K Z :=
  <[k := int_wrap (default 0%Z (m !! k) + 1)]> m.

(** [recordViolation] on a non-null aircraft [a]. *)
Definition recordViolation (a : Aircraft.t)
    (actualSpeed minAllowedSpeed maxAllowedSpeed currentTime : Q) (m : t)
    : ViolationRecord * t :=
  let airlineName := default "Unknown" (Aircraft.m_airline a) in
  let phase := Aircraft.m_currentPhase a in
  let record :=
    mkViolation (Aircraft.m_id a) airlineName phase actualSpeed
      minAllowedSpeed maxAllowedSpeed currentTime
      (generateViolationDescription a actualSpeed minAllowedSpeed
         maxAllowedSpeed) in
  (record,
   mk (m_speedHistory m) (m_violations m ++ [record])
      (bump airlineName (m_violationsByAirline m))
      (bump phase (m_violationsByPhase m))).

(** [generateAVN] on a non-null aircraft: the text handed to
    [Aircraft::issueAVN]. *)
Definition generateAVN (description : string) (currentTime : Q)
    (a : Aircraft.t) : Aircraft.t :=
  let phase := Aircraft.m_currentPhase a in
  let speed := Aircraft.m_currentSpeed a in
  let limits := getSpeedLimitsForPhase phase in
  let detailedDesc :=
    [ Str description; Str " at time "; Fixed1 currentTime; Str "s: ";
      Str "Speed "; Fixed1 speed; Str " km/h " ]
    ++ (if Qltb speed (lim_min limits) then
          [ Str "is below minimum "; Fixed1 (lim_min limits); Str " km/h " ]
        else if Qltb (lim_max limits) speed then
          [ Str "exceeds maximum "; Fixed1 (lim_max limits); Str " km/h " ]
        else [])
    ++ [ Str "for "; PhaseName phase; Str " phase." ] in
  Aircraft.issueAVN detailedDesc a.

Definition monitorAircraftSpeed (aircraft : option ptr) (currentTime : Q)
    (m : t) (h : aircraft_heap) : option (bool * t * aircraft_heap) :=
  match aircraft with
  | None => Some (false, m, h)
  | Some p =>
      match h !! p with
      | None => None
      | Some a =>
          let phase := Aircraft.m_currentPhase a in
          let speed := Aircraft.m_currentSpeed a in
          let m := recordSpeedDataPoint (Aircraft.m_id a) speed m in
          let limits := getSpeedLimitsForPhase phase in
          let isViolation :=
            Qltb speed (lim_min limits) || Qltb (lim_max limits) speed in
          let hasRapidChanges := detectRapidSpeedChanges (Aircraft.m_id a) m in
          if isViolation || hasRapidChanges then
            let '(_, m) :=
              recordViolation a speed (lim_min limits) (lim_max limits)
                currentTime m in
            let description :=
              if hasRapidChanges
              then "Rapid and unsafe speed changes detected"
              else "Speed limit violation" in
            Some (true, m, <[p := generateAVN description currentTime a]> h)
          else Some (false, m, h)
      end
  end.

Definition getViolationsForAircraft (aircraftId' : string) (m : t)
    : list ViolationRecord :=
  filter (λ v, aircraftId v = aircraftId') (m_violations m).

Definition getTotalViolationCount (m : t) : Z :=
  int_wrap (Z.of_nat (length (m_violations m))).

(** [n] consecutive calls of [monitorAircraftSpeed] on the same
    aircraft, at the times listed. *)
Fixpoint monitorRepeatedly (aircraft : option ptr) (times : list Q)
    (m : t) (h : aircraft_heap) : option (t * aircraft_heap) :=
  match times with
  | [] => Some (m, h)
  | currentTime :: times' =>
      match monitorAircraftSpeed aircraft currentTime m h with
      | Some (_, m', h') => monitorRepeatedly aircraft times' m' h'
      | None => None
      end
  end.

End SpeedMonitor.

(** ** Airline.cpp *)

Module Airline.

Record t := mk {
  m_name : string;
  m_primaryType : AircraftType;
  m_totalAircrafts : Z;
  m_activeFlights : Z;
  m_violationCount : Z;
  (* one time stamp for the whole airline *)
  m_lastFlightScheduleTime : Q;
  m_fleet : gmap string ptr
}.

(** The draws one scheduling attempt may consume. *)
Record Draws := mkDraws {
  emergencyDraw : Q;   (* [scheduleFlightIfNeeded]: uniform in [0,1) *)
  typeDraw1 : Q;       (* [determineAircraftType]: first [dist(gen)] *)
  typeDraw2 : Q;       (* [determineAircraftType]: second [dist(gen)] *)
  flightNumber : nat;  (* [generateFlightId]: uniform in [100, 9999] *)
  speedDraw : Q        (* the initial speed of the new aircraft *)
}.

(** The constructor. *)
Definition new (name : string) (type : AircraftType)
    (totalAircrafts activeFlights : Z) : t :=
  mk name type totalAircrafts activeFlights 0 0 ∅.

Definition canScheduleFlight (a : t) : bool :=
  bool_decide (Z.of_nat (size (m_fleet a)) < to_size_t (m_totalAircrafts a))%Z.

Definition isspace (c : ascii) : bool :=
  let n := nat_of_ascii c in
  bool_decide (n = 32) || (bool_decide (9 ≤ n) && bool_decide (n ≤ 13)).

Definition toupper (c : ascii) : ascii :=
  let n := nat_of_ascii c in
  if bool_decide (97 ≤ n) && bool_decide (n ≤ 122)
  then ascii_of_nat (n - 32) else c.

(** The first character of every whitespace-separated word, in upper
    case ([iss >> word] in a loop).  [inWord] tells whether the
    previous character belonged to a word. *)
Fixpoint initials (inWord : bool) (s : string) : string :=
  match s with
  | EmptyString => EmptyString
  | String c s' =>
      if isspace c then initials false s'
      else if inWord then initials true s'
      else String (toupper c) (initials true s')
  end.

Definition generateFlightId (flightNumber : nat) (a : t) : string :=
  let airlineCode := initials false (m_name a) in
  let airlineCode :=
    match airlineCode with EmptyString => "XX" | _ => airlineCode end in
  airlineCode +:+ NilEmpty.string_of_uint (Nat.to_uint flightNumber).

Definition determineAircraftType (direction : FlightDirection)
    (forceEmergency : bool) (d1 d2 : Q) (a : t) : AircraftType :=
  if forceEmergency then EMERGENCY
  else if bool_decide (m_primaryType a = EMERGENCY)
          || bool_decide (m_primaryType a = CARGO)
  then m_primaryType a
  else
    (* the primary type is COMMERCIAL *)
    match map_find direction EMERGENCY_PROBABILITY with
    | Some emergencyProb =>
        if Qltb d1 emergencyProb then EMERGENCY
        else if Qltb d2 (5 # 100) then CARGO
        else m_primaryType a
    | None =>
        if Qltb d1 (5 # 100) then CARGO else m_primaryType a
    end.

(** [std::make_shared<Aircraft>] returns an address that is not in use. *)
Definition createAircraft (direction : FlightDirection)
    (forceEmergency : bool) (d : Draws) (a : t) (h : aircraft_heap)
    : option ptr * t * aircraft_heap :=
  if negb (canScheduleFlight a) then (None, a, h)
  else
    let aircraftType :=
      determineAircraftType direction forceEmergency
        (typeDraw1 d) (typeDraw2 d) a in
    let flightId := generateFlightId (flightNumber d) a in
    let p : ptr := fresh (dom h) in
    let aircraft :=
      Aircraft.new flightId aircraftType direction (Some (m_name a))
        (speedDraw d) in
    (Some p,
     mk (m_name a) (m_primaryType a) (m_totalAircrafts a)
        (int_wrap (m_activeFlights a + 1)) (m_violationCount a)
        (m_lastFlightScheduleTime a) (<[flightId := p]> (m_fleet a)),
     <[p := aircraft]> h).

Definition with_lastFlightScheduleTime (x : Q) (a : t) : t :=
  mk (m_name a) (m_primaryType a) (m_totalAircrafts a) (m_activeFlights a)
     (m_violationCount a) x (m_fleet a).

Definition scheduleFlightIfNeeded (currentTime : Q)
    (direction : FlightDirection) (d : Draws) (a : t) (h : aircraft_heap)
    : bool * t * aircraft_heap :=
  match map_find direction FLIGHT_GENERATION_INTERVAL with
  | None => (false, a, h)
  | Some interval =>
      if Qltb (currentTime - m_lastFlightScheduleTime a) interval
      then (false, a, h)
      else if negb (canScheduleFlight a) then (false, a, h)
      else
        let isEmergency :=
          match map_find direction EMERGENCY_PROBABILITY with
          | Some emergencyProb => Qltb (emergencyDraw d) emergencyProb
          | None => false
          end in
        match createAircraft direction isEmergency d a h with
        | (None, a', h') => (false, a', h')
        | (Some _, a', h') =>
            (true, with_lastFlightScheduleTime currentTime a', h')
        end
  end.

(** A generator tick is a call [scheduleFlightIfNeeded(now, direction)];
    [runLog] performs the calls in order and logs each with its result. *)
Record Call := mkCall {
  c_time : Q;
  c_direction : FlightDirection;
  c_draws : Draws
}.

Fixpoint runLog (calls : list Call) (a : t) (h : aircraft_heap)
    : list (Call * bool) * t * aircraft_heap :=
  match calls with
  | [] => ([], a, h)
  | c :: calls' =>
      let '(fired, a', h') :=
        scheduleFlightIfNeeded (c_time c) (c_direction c) (c_draws c) a h in
      let '(log, a'', h'') := runLog calls' a' h' in
      ((c, fired) :: log, a'', h'')
  end.

End Airline.

(** ** The scheduling rule as the specification words it

    "Fires iff [now − lastScheduleTime[direction] ≥ interval[direction]]
    and the fleet is below capacity", with one time stamp per direction:
    the time of the latest call for that direction that fired, [0]
    before the first. *)

Module ScheduleSpec.


Definition interval (direction : FlightDirection) : Q :=
  match direction with
  | NORTH => 180 | SOUTH => 120 | EAST => 150 | WEST => 240
  end.


End ScheduleSpec.

(** * Vocabulary of the statements *)

(** ** Runways *)

(** Runway eligibility as the specification words it: RWY-A serves North
    and South, RWY-B serves East and West, RWY-C serves any direction but
    only Cargo and Emergency aircraft. *)
Definition eligible (id : RunwayId) (direction : FlightDirection)
    (kind : AircraftType) : Prop :=
  match id with
  | RWY_A => direction = NORTH ∨ direction = SOUTH
  | RWY_B => direction = EAST ∨ direction = WEST
  | RWY_C => kind = CARGO ∨ kind = EMERGENCY
  end.

(** "status = InUse ⇔ an aircraft is stored as occupant". *)
Definition occupancy_consistent (r : Runway.t) : Prop :=
  Runway.m_status r = Runway.IN_USE ↔ Runway.m_assignedAircraft r ≠ None.

(** The half of it that every operation keeps. *)
Definition occupant_implies_in_use (r : Runway.t) : Prop :=
  Runway.m_assignedAircraft r ≠ None → Runway.m_status r = Runway.IN_USE.

(** A call other than [setStatus(IN_USE)]. *)
Definition not_forced_in_use (c : Runway.call) : Prop :=
  match c with
  | Runway.SetStatus _ Runway.IN_USE => False
  | _ => True
  end.

(** ** Flight statuses *)

(** The transition graph of flight statuses, as the specification draws
    it. *)
Definition edge (s s' : Flight.Status) : Prop :=
  match s, s' with
  | Flight.SCHEDULED, (Flight.ACTIVE | Flight.EMERGENCY | Flight.CANCELED) => True
  | Flight.ACTIVE, (Flight.EMERGENCY | Flight.COMPLETED | Flight.CANCELED
                    | Flight.DIVERTED) => True
  | Flight.EMERGENCY, (Flight.COMPLETED | Flight.CANCELED | Flight.DIVERTED) => True
  | _, _ => False
  end.

(** One operation leaves the status alone or moves it along an edge. *)
Definition follows_graph (s s' : Flight.Status) : Prop := s' = s ∨ edge s s'.

(** The public operations of a flight that change its status, other than
    [handleGroundFault]; [perform] calls one, [statusTrace] calls a
    sequence and lists the status after each call. *)
Inductive flight_operation :=
  | Activate (currentTime : Q)
  | Complete
  | Cancel (reason : string)
  | Divert (reason : string)
  | SetEmergency (isEmergency : bool)
  | Update (deltaTime currentTime : Q) (d : Flight.Draws).

Definition perform (o : flight_operation) (f : Flight.t) : M Flight.t :=
  match o with
  | Activate currentTime => mret (Flight.activate currentTime f).2
  | Complete => '(_, f') ← Flight.complete f; mret f'
  | Cancel reason => '(_, f') ← Flight.cancel reason f; mret f'
  | Divert reason => '(_, f') ← Flight.divert reason f; mret f'
  | SetEmergency isEmergency => Flight.setEmergency isEmergency f
  | Update deltaTime currentTime d => Flight.update deltaTime currentTime d f
  end.

Fixpoint statusTrace (os : list flight_operation) (f : Flight.t)
    : M (list Flight.Status) :=
  match os with
  | [] => mret []
  | o :: os' =>
      f' ← perform o f;
      rest ← statusTrace os' f';
      mret (Flight.m_status f' :: rest)
  end.

(** Consecutive statuses are equal or joined by an edge. *)
Fixpoint is_path (s : Flight.Status) (trace : list Flight.Status) : Prop :=
  match trace with
  | [] => True
  | s' :: trace' => follows_graph s s' ∧ is_path s' trace'
  end.

(** ** Plan execution *)


(** The operations of an arrival plan and of a departure plan, regular or
    emergency. *)
Definition arrivalOperations : list Flight.Operation :=
  [ Flight.Transition; Flight.Transition; Flight.ReleaseThenTransition;
    Flight.Transition; Flight.Complete ].

Definition departureOperations : list Flight.Operation :=
  [ Flight.Transition; Flight.Transition; Flight.Transition;
    Flight.ReleaseThenTransition; Flight.Complete ].





(** ** Speed monitoring *)

(** The speed of an aircraft lies outside the bounds of its phase. *)
Definition out_of_bounds (a : Aircraft.t) : Prop :=
  let limits := SpeedMonitor.getSpeedLimitsForPhase (Aircraft.m_currentPhase a) in
  (Aircraft.m_currentSpeed a < lim_min limits)%Q
  ∨ (lim_max limits < Aircraft.m_currentSpeed a)%Q.

(** * Scenarios

    Concrete objects on which the definitions are run. *)


Definition holding650 : Aircraft.t :=
  Aircraft.mk "PIA101" COMMERCIAL NORTH (Some "PIA") HOLDING 650 None false [].

Definition heap650 : aircraft_heap := {[ 1 := holding650 ]}.

(** A cargo aircraft arriving from the north, and the heap that holds it
    at address 1. *)
Definition cargoNorth : Aircraft.t :=
  Aircraft.mk "BD204" CARGO NORTH (Some "Blue Dart") HOLDING 500 None false [].

Definition heap1 : aircraft_heap := {[ 1 := cargoNorth ]}.

(** An arrival that has reached its gate, with its ground-fault flag set
    (as [Aircraft::update] sets it during ground phases), and its flight,
    already completed. *)
Definition faultyAtGate : Aircraft.t :=
  Aircraft.mk "PIA101" COMMERCIAL NORTH (Some "PIA") AT_GATE_ARRIVAL 3 (Some RWY_A)
    true [].

Definition completedFlight : Flight.t :=
  Flight.mk "PIA101" (Some 1) Flight.COMPLETED false 0 10 160 ""
    None Flight.arrivalPlan 5.

Definition worldAtGate : World :=
  mkWorld {[ 1 := faultyAtGate ]} {[ 7 := Runway.new RWY_A 0 ]} 200000000000.




(** A departure taxiing out on RWY-B (held since clock reading 5 s) whose
    aircraft has developed a ground fault. *)
Definition faultyTaxiOut : Aircraft.t :=
  Aircraft.mk "AB731" COMMERCIAL EAST (Some "AirBlue") TAXI_OUT 20 (Some RWY_B)
    true [].

Definition taxiingFlight : Flight.t :=
  Flight.mk "AB731" (Some 1) Flight.ACTIVE false 0 10 130 ""
    (Some 8) Flight.departurePlan 1.

Definition worldTaxi : World :=
  mkWorld {[ 1 := faultyTaxiOut ]}
          {[ 8 := Runway.mk RWY_B Runway.IN_USE (Some 1) 1 0 5000000000 ]}
          47000000000.

Definition calmDraws : Flight.Draws := Flight.mkDraws 0 (1 # 2) (1 # 2).










(** ** Aircraft *)

(** The position of a phase in its chain (arrival: Holding .. gate;
    departure: gate .. Cruise), and the chain it belongs to. *)
Definition phase_rank (p : FlightPhase) : nat :=
  match p with
  | HOLDING | AT_GATE_DEPARTURE => 0
  | APPROACH | TAXI_OUT => 1
  | LANDING | TAKEOFF_ROLL => 2
  | TAXI_IN | CLIMB => 3
  | AT_GATE_ARRIVAL | CRUISE => 4
  end.

Definition arrival_phase (p : FlightPhase) : bool :=
  match p with
  | HOLDING | APPROACH | LANDING | TAXI_IN | AT_GATE_ARRIVAL => true
  | _ => false
  end.

(** A newly built aircraft for the scenarios below. *)
Definition freshEast : Aircraft.t :=
  Aircraft.new "AB731" COMMERCIAL EAST (Some "AirBlue") (1 # 2).


(** A departure taxiing out, without fault. *)
Definition taxiOutClear : Aircraft.t :=
  Aircraft.mk "AB731" COMMERCIAL EAST (Some "AirBlue") TAXI_OUT 20 (Some RWY_B)
    false [].

(** ** Runway traces *)

(** The steady clock does not run backwards: every call of the trace is
    made at or after [t0] and at or after the call before it. *)
Fixpoint clock_monotone (t0 : Z) (cs : list Runway.call) : Prop :=
  match cs with
  | [] => True
  | c :: cs' => (t0 ≤ Runway.call_time c)%Z
                ∧ clock_monotone (Runway.call_time c) cs'
  end.

(** The successful assignments of a log. *)
Fixpoint successful_assignments (log : list (Runway.call * bool)) : nat :=
  match log with
  | [] => 0
  | (Runway.AssignAircraft _ _, true) :: log' => S (successful_assignments log')
  | _ :: log' => successful_assignments log'
  end.

(** Both eligibility checks of a runway at once. *)
Definition eligibleb (id : RunwayId) (direction : FlightDirection)
    (kind : AircraftType) : bool :=
  Runway.isValidRunwayForDirection id direction
  && Runway.isValidRunwayForAircraftType id kind.

(** RWY-B occupied by the aircraft at address 1 since clock reading 5 s,
    after two earlier uses that lasted 60 s together. *)
Definition busyB : Runway.t :=
  Runway.mk RWY_B Runway.IN_USE (Some 1) 3 60 5000000000.


(** A busy quarter of an hour on RWY-C: the cargo aircraft at address 1
    is assigned, a second assignment is refused, the aircraft releases the
    runway, the runway is closed for weather and reopened, and the
    aircraft is assigned again. *)
Definition traceC : list Runway.call :=
  [ Runway.AssignAircraft 5000000000 (Some 1);
    Runway.AssignAircraft 6000000000 (Some 1);
    Runway.ReleaseAircraft 95000000000 (Some 1);
    Runway.SetStatus 100000000000 Runway.WEATHER_CLOSED;
    Runway.SetStatus 700000000000 Runway.AVAILABLE;
    Runway.AssignAircraft 900000000000 (Some 1) ].

(** ** Flights and their runway *)

(** The flight's weak reference points to a runway that is alive. *)
Definition holds_live_runway (f : Flight.t) (w : World) : Prop :=
  ∃ q r, Flight.m_assignedRunway f = Some q ∧ runways w !! q = Some r.

(** A status from which a runway may be requested. *)
Definition may_request_runway (s : Flight.Status) : Prop :=
  s = Flight.SCHEDULED ∨ s = Flight.ACTIVE ∨ s = Flight.EMERGENCY.

(** The runway at [rp] is occupied by the aircraft at [p]. *)
Definition occupied_by (w : World) (rp p : ptr) : Prop :=
  ∃ r, runways w !! rp = Some r
       ∧ Runway.m_status r = Runway.IN_USE
       ∧ Runway.m_assignedAircraft r = Some p.

(** The runway at [rp] is Available and unoccupied. *)
Definition free_runway (w : World) (rp : ptr) : Prop :=
  ∃ r, runways w !! rp = Some r
       ∧ Runway.m_status r = Runway.AVAILABLE
       ∧ Runway.m_assignedAircraft r = None.

(** The plan the constructor and [setEmergency] choose. *)
Definition plan_for (isEmergency arrival : bool) : list Flight.FlightPlanStep :=
  match isEmergency, arrival with
  | false, true => Flight.arrivalPlan
  | false, false => Flight.departurePlan
  | true, true => Flight.emergencyArrivalPlan
  | true, false => Flight.emergencyDeparturePlan
  end.

(** A scheduled cargo arrival and the world it lives in: the aircraft at
    address 1, RWY-C at address 9, both fresh. *)
Definition scheduledCargo : Flight.t :=
  Flight.mk "BD204" (Some 1) Flight.SCHEDULED false 0 0 150 ""
    None Flight.arrivalPlan 0.

Definition worldCargo : World :=
  mkWorld heap1 {[ 9 := Runway.new RWY_C 0 ]} 5000000000.


(** The three statuses without outgoing transition. *)
Definition terminal (s : Flight.Status) : Prop :=
  s = Flight.COMPLETED ∨ s = Flight.CANCELED ∨ s = Flight.DIVERTED.

(** A flight constructed for 100 s and checked 40 s late. *)
Definition lateCargo : Flight.t :=
  Flight.mk "BD204" (Some 1) Flight.SCHEDULED false 100 0 250 ""
    None Flight.arrivalPlan 0.

(** * Properties *)

(** ** Comparisons on doubles *)

Lemma Qltb_lt (a b : Q) : Qltb a b = true ↔ (a < b)%Q.
Proof.
  unfold Qltb. rewrite negb_true_iff, <- not_true_iff_false, Qle_bool_iff.
  split; [apply Qnot_le_lt | apply Qlt_not_le].
Qed.

Lemma Qltb_ge (a b : Q) : Qltb a b = false ↔ (b <= a)%Q.
Proof.
  unfold Qltb. rewrite negb_false_iff. apply Qle_bool_iff.
Qed.

Lemma clamp_bounds (v lo hi : Q) :
  (lo <= hi)%Q → (lo <= clamp v lo hi)%Q ∧ (clamp v lo hi <= hi)%Q.
Proof.
  intros Hle. unfold clamp.
  destruct (Qltb v lo) eqn:Hlo.
  - split; [apply Qle_refl | exact Hle].
  - apply Qltb_ge in Hlo.
    destruct (Qltb hi v) eqn:Hhi.
    + split; [exact Hle | apply Qle_refl].
    + apply Qltb_ge in Hhi. by split.
Qed.

Lemma int_wrap_id (z : Z) : (INT_MIN ≤ z ≤ INT_MAX)%Z → int_wrap z = z.
Proof.
  unfold INT_MIN, INT_MAX, int_wrap. intros H.
  rewrite Z.mod_small; lia.
Qed.

(** ** Aircraft *)

Lemma SPEED_LIMITS_total (p : FlightPhase) :
  ∃ limits, map_find p SPEED_LIMITS = Some limits.
Proof. destruct p; eexists; reflexivity. Qed.

Lemma SPEED_LIMITS_ordered (p : FlightPhase) (limits : SpeedLimits) :
  map_find p SPEED_LIMITS = Some limits → (lim_min limits <= lim_max limits)%Q.
Proof.
  destruct p; intros [= <-]; cbn; by vm_compute.
Qed.



(** ** Runway *)

Lemma eligible_checks (r : Runway.t) (a : Aircraft.t) :
  Runway.canUseForDirection (Aircraft.m_direction a) r
  && Runway.canUseForAircraftType (Aircraft.m_type a) r = true
  ↔ eligible (Runway.m_id r) (Aircraft.m_direction a) (Aircraft.m_type a).
Proof.
  unfold Runway.canUseForDirection, Runway.canUseForAircraftType, eligible.
  destruct (Runway.m_id r), (Aircraft.m_direction a), (Aircraft.m_type a);
    cbn; split; intros H; try done; try (by left); try (by right);
    by destruct H.
Qed.

(** C4.  [assignAircraft] always returns (the aircraft pointer, when not
    null, being a live object); it returns false exactly when the status is
    not Available, or the pointer is null, or the aircraft is not eligible
    for the runway (RWY-A: North or South; RWY-B: East or West; RWY-C: Cargo
    or Emergency, any direction), and then neither the runway nor the
    aircraft changes.  When it returns true the status is InUse, the
    occupant is the aircraft, the usage count is one higher (short of
    [INT_MAX]) and the assignment time is the clock reading. *)
Theorem assignAircraft_fails_exactly_when
    (now : Z) (aircraft : option ptr) (r : Runway.t) (h : aircraft_heap) :
  (∀ p, aircraft = Some p → is_Some (h !! p)) →
  (INT_MIN ≤ Runway.m_usageCount r < INT_MAX)%Z →
  ∃ ok r' h',
    Runway.assignAircraft now aircraft r h = Some (ok, r', h')
    ∧ (ok = false ↔
         Runway.m_status r ≠ Runway.AVAILABLE
         ∨ aircraft = None
         ∨ ∃ p a, aircraft = Some p ∧ h !! p = Some a
                  ∧ ¬ eligible (Runway.m_id r) (Aircraft.m_direction a)
                               (Aircraft.m_type a))
    ∧ (ok = false → r' = r ∧ h' = h)
    ∧ (ok = true →
         Runway.m_status r' = Runway.IN_USE
         ∧ Runway.m_assignedAircraft r' = aircraft
         ∧ Runway.m_usageCount r' = (Runway.m_usageCount r + 1)%Z
         ∧ Runway.m_lastAssignmentTime r' = now
         ∧ Runway.m_id r' = Runway.m_id r
         ∧ Runway.m_totalUsageTime r' = Runway.m_totalUsageTime r).
Proof.
  intros Halloc Hcount. unfold Runway.assignAircraft.
  destruct (decide (Runway.m_status r = Runway.AVAILABLE)) as [Hav | Hav].
  2: { rewrite bool_decide_eq_false_2 by done. cbn.
       exists false, r, h. repeat split; try done. by left. }
  rewrite bool_decide_eq_true_2 by done. cbn.
  destruct aircraft as [p |].
  2: { exists false, r, h. repeat split; try done. right; by left. }
  destruct (Halloc p eq_refl) as [a Ha]. rewrite Ha.
  pose proof (eligible_checks r a) as Hel.
  destruct (Runway.canUseForDirection (Aircraft.m_direction a) r) eqn:Hd; cbn.
  2: { exists false, r, h. repeat split; try done.
       right; right. exists p, a. repeat split; try done.
       intros He. apply Hel in He. done. }
  destruct (Runway.canUseForAircraftType (Aircraft.m_type a) r) eqn:Hk; cbn.
  2: { exists false, r, h. repeat split; try done.
       right; right. exists p, a. repeat split; try done.
       intros He. apply Hel in He. done. }
  eexists true, _, _. split; [reflexivity |].
  split; [| split; [done |]].
  - split; [done |]. intros [H | [H | (p' & a' & Hp & Ha' & He)]]; try done.
    injection Hp as <-. rewrite Ha in Ha'. injection Ha' as <-.
    exfalso. apply He, Hel. done.
  - intros _. cbn. repeat split; try done.
    apply int_wrap_id. unfold INT_MIN, INT_MAX in *. lia.
Qed.

Lemma assignAircraft_witness :
  ∃ ok r' h',
    Runway.assignAircraft 5 (Some 1) (Runway.new RWY_C 0) heap1
    = Some (ok, r', h')
    ∧ (ok = false → r' = Runway.new RWY_C 0 ∧ h' = heap1)
    ∧ (ok = true → Runway.m_status r' = Runway.IN_USE).
Proof.
  destruct (assignAircraft_fails_exactly_when 5 (Some 1)
              (Runway.new RWY_C 0) heap1)
    as (ok & r' & h' & Heq & _ & Hfail & Hok).
  - intros p [= <-]. by eexists.
  - by vm_compute.
  - exists ok, r', h'. split; [exact Heq |]. split; [exact Hfail |].
    intros H. by apply Hok.
Defined.

Lemma assignAircraft_true_inv
    (now : Z) (aircraft : option ptr) (r r1 : Runway.t) (h h1 : aircraft_heap) :
  Runway.assignAircraft now aircraft r h = Some (true, r1, h1) →
  Runway.m_status r = Runway.AVAILABLE
  ∧ ∃ p, aircraft = Some p
    ∧ r1 = Runway.mk (Runway.m_id r) Runway.IN_USE (Some p)
             (int_wrap (Runway.m_usageCount r + 1))
             (Runway.m_totalUsageTime r) now.
Proof.
  unfold Runway.assignAircraft. intros H.
  destruct (decide (Runway.m_status r = Runway.AVAILABLE)) as [Hav | Hav].
  2: { rewrite bool_decide_eq_false_2 in H by done. done. }
  rewrite bool_decide_eq_true_2 in H by done. cbn in H.
  destruct aircraft as [p |]; [| done].
  destruct (h !! p) as [a |]; [| done].
  destruct (Runway.canUseForDirection _ r); [| done].
  destruct (Runway.canUseForAircraftType _ r); [| done].
  cbn in H. injection H as <- <-. split; [done |]. by exists p.
Qed.

Lemma releaseAircraft_by_occupant (now : Z) (p : ptr) (r : Runway.t) :
  Runway.m_status r = Runway.IN_USE → Runway.m_assignedAircraft r = Some p →
  Runway.releaseAircraft now (Some p) r
  = (true,
     Runway.mk (Runway.m_id r) Runway.AVAILABLE None (Runway.m_usageCount r)
       (Runway.m_totalUsageTime r
        + inject_Z (Runway.seconds_between now (Runway.m_lastAssignmentTime r)))
       (Runway.m_lastAssignmentTime r)).
Proof.
  intros Hst Hocc. unfold Runway.releaseAircraft. rewrite Hst, Hocc.
  rewrite (bool_decide_eq_true_2 (Runway.IN_USE = Runway.IN_USE)) by done.
  rewrite (bool_decide_eq_true_2 (Some p = Some p)) by done. done.
Qed.

Lemma seconds_between_nonneg (now since : Z) :
  (since ≤ now)%Z → (0 <= inject_Z (Runway.seconds_between now since))%Q.
Proof.
  intros H. unfold Runway.seconds_between, Runway.ticks_per_second.
  change 0%Q with (inject_Z 0). rewrite <- Zle_Qle.
  apply Z.quot_pos; lia.
Qed.

Lemma Qle_plus_nonneg (x d : Q) : (0 <= d)%Q → (x <= x + d)%Q.
Proof.
  intros H. rewrite <- (Qplus_0_r x) at 1.
  apply Qplus_le_compat; [apply Qle_refl | exact H].
Qed.

(** C8.  On an Available runway with usage count [n] and total usage time
    [t_prev], a successful [assignAircraft(a)] followed by
    [releaseAircraft(a)] by the same aircraft succeeds and leaves the
    runway Available, without occupant, with usage count [n + 1] (short of
    [INT_MAX]) and a total usage time of at least [t_prev]; the steady
    clock does not run backwards between the two calls. *)
Theorem assign_then_release_restores
    (now1 now2 : Z) (p : ptr) (r r1 : Runway.t) (h h1 : aircraft_heap) :
  Runway.m_status r = Runway.AVAILABLE →
  (INT_MIN ≤ Runway.m_usageCount r < INT_MAX)%Z →
  (now1 ≤ now2)%Z →
  Runway.assignAircraft now1 (Some p) r h = Some (true, r1, h1) →
  ∃ r2,
    Runway.releaseAircraft now2 (Some p) r1 = (true, r2)
    ∧ Runway.m_status r2 = Runway.AVAILABLE
    ∧ Runway.m_assignedAircraft r2 = None
    ∧ Runway.m_usageCount r2 = (Runway.m_usageCount r + 1)%Z
    ∧ (Runway.m_totalUsageTime r <= Runway.m_totalUsageTime r2)%Q.
Proof.
  intros _ Hcount Hclock Hassign.
  apply assignAircraft_true_inv in Hassign as (_ & q & [= <-] & ->).
  unfold Runway.releaseAircraft. cbn.
  rewrite (bool_decide_eq_true_2 (Some p = Some p)) by done. cbn.
  eexists. split; [reflexivity |]. cbn. repeat split.
  - apply int_wrap_id. unfold INT_MIN, INT_MAX in *. lia.
  - apply Qle_plus_nonneg, seconds_between_nonneg, Hclock.
Qed.

Lemma assign_then_release_witness :
  ∃ r2,
    Runway.releaseAircraft 95000000000 (Some 1)
      (Runway.mk RWY_C Runway.IN_USE (Some 1) 1 0 5000000000) = (true, r2)
    ∧ Runway.m_status r2 = Runway.AVAILABLE
    ∧ Runway.m_assignedAircraft r2 = None
    ∧ Runway.m_usageCount r2 = 1%Z
    ∧ (0 <= Runway.m_totalUsageTime r2)%Q.
Proof.
  refine (assign_then_release_restores 5000000000 95000000000 1
            (Runway.new RWY_C 0) _ heap1
            (<[1 := Aircraft.assignRunway RWY_C cargoNorth]> heap1)
            eq_refl _ _ _).
  - by vm_compute.
  - by vm_compute.
  - reflexivity.
Defined.

(** What the three operations do to the occupancy invariant.  The half
    "an occupant is stored only while InUse" survives every call; the full
    equivalence survives every call except [setStatus(IN_USE)]. *)

Lemma step_keeps_occupant_implies_in_use
    (c : Runway.call) (r r' : Runway.t) (h h' : aircraft_heap) (ok : bool) :
  Runway.step c r h = Some (ok, r', h') →
  occupant_implies_in_use r → occupant_implies_in_use r'.
Proof.
  unfold occupant_implies_in_use.
  destruct c as [now a | now a | now s]; cbn.
  - intros Hstep Hinv. destruct ok.
    + apply assignAircraft_true_inv in Hstep as (_ & p & _ & ->). cbn. done.
    + unfold Runway.assignAircraft in Hstep.
      repeat (case_match; simplify_eq); intuition congruence.
  - unfold Runway.releaseAircraft. intros Hstep Hinv.
    repeat (case_match; simplify_eq); cbn in *; intuition congruence.
  - unfold Runway.setStatus. intros [= <- <- <-] Hinv. cbn.
    destruct s; cbn; try done.
Qed.

Lemma step_keeps_occupancy_consistent
    (c : Runway.call) (r r' : Runway.t) (h h' : aircraft_heap) (ok : bool) :
  not_forced_in_use c →
  Runway.step c r h = Some (ok, r', h') →
  occupancy_consistent r → occupancy_consistent r'.
Proof.
  unfold occupancy_consistent.
  destruct c as [now a | now a | now s]; cbn.
  - intros _ Hstep Hinv. destruct ok.
    + apply assignAircraft_true_inv in Hstep as (_ & p & _ & ->). cbn. done.
    + unfold Runway.assignAircraft in Hstep.
      repeat (case_match; simplify_eq); intuition congruence.
  - unfold Runway.releaseAircraft. intros _ Hstep Hinv.
    repeat (case_match; simplify_eq); cbn in *; intuition congruence.
  - unfold Runway.setStatus. intros Hs [= <- <- <-] Hinv. cbn.
    destruct s; cbn in *; done.
Qed.

Lemma run_keeps_occupancy_consistent
    (cs : list Runway.call) (r r' : Runway.t) (h h' : aircraft_heap) :
  Forall not_forced_in_use cs →
  Runway.run cs r h = Some (r', h') →
  occupancy_consistent r → occupancy_consistent r'.
Proof.
  intros Hcs. revert r h.
  induction Hcs as [| c cs Hc _ IH]; intros r h; cbn.
  - by intros [= <- <-].
  - destruct (Runway.step c r h) as [[[ok r1] h1] |] eqn:Hstep; [| done].
    intros Hrun Hinv. eapply IH; [exact Hrun |].
    by eapply step_keeps_occupancy_consistent.
Qed.

Lemma only_available_becomes_in_use
    (c : Runway.call) (r r' : Runway.t) (h h' : aircraft_heap) (ok : bool) :
  not_forced_in_use c →
  Runway.step c r h = Some (ok, r', h') →
  Runway.m_status r ≠ Runway.IN_USE →
  Runway.m_status r' = Runway.IN_USE →
  Runway.m_status r = Runway.AVAILABLE.
Proof.
  destruct c as [now a | now a | now s]; cbn.
  - intros _ Hstep Hbefore Hafter. destruct ok.
    + by apply assignAircraft_true_inv in Hstep as (? & _).
    + unfold Runway.assignAircraft in Hstep.
      repeat (case_match; simplify_eq); intuition congruence.
  - unfold Runway.releaseAircraft. intros _ Hstep Hbefore Hafter.
    repeat (case_match; simplify_eq); cbn in *; intuition congruence.
  - unfold Runway.setStatus. intros Hs [= <- <- <-] Hbefore Hafter.
    cbn in *. by subst s.
Qed.

(** C1.  The claim fails on the code at [setStatus(IN_USE)]: on a fresh
    (Available, unoccupied) runway the call succeeds and leaves the status
    InUse with no occupant stored, and on a runway under maintenance it
    moves the status from Maintenance to InUse. *)
Theorem setStatus_IN_USE_breaks_occupancy :
  Runway.setStatus 0 Runway.IN_USE (Runway.new RWY_A 0)
  = (true, Runway.mk RWY_A Runway.IN_USE None 0 0 0)
  ∧ ¬ occupancy_consistent
        (Runway.setStatus 0 Runway.IN_USE (Runway.new RWY_A 0)).2
  ∧ Runway.run [Runway.SetStatus 0 Runway.MAINTENANCE;
                Runway.SetStatus 1 Runway.IN_USE] (Runway.new RWY_A 0) ∅
    = Some (Runway.mk RWY_A Runway.IN_USE None 0 0 0, ∅).
Proof.
  split; [reflexivity |]. split; [| reflexivity].
  unfold occupancy_consistent. cbn. intros [H _]. by apply H.
Qed.

(** ** Flight: the status machine *)

Ltac msimpl := unfold mbind, M_bind, mret, M_ret in *; cbn in *.

Lemma isValidStatusTransition_edge (s' : Flight.Status) (f : Flight.t) :
  Flight.isValidStatusTransition s' f = true ↔ edge (Flight.m_status f) s'.
Proof.
  unfold Flight.isValidStatusTransition, edge.
  destruct (Flight.m_status f), s'; cbn; done.
Qed.


Lemma releaseIfAssigned_inv (f f' : Flight.t) (w w' : World) :
  Flight.releaseIfAssigned f w = Some (f', w') →
  (f' = f ∨ f' = Flight.with_assignedRunway None f)
  ∧ aircrafts w' = aircrafts w ∧ steady_clock w' = steady_clock w.
Proof.
  unfold Flight.releaseIfAssigned, lock, Runway_releaseAircraft. msimpl.
  destruct (Flight.m_assignedRunway f) as [rp |]; [| by intros [= <- <-]; auto].
  destruct (runways w !! rp) as [r |] eqn:Hr; [| by intros [= <- <-]; auto].
  cbn. rewrite Hr. destruct (Runway.releaseAircraft _ _ r).
  intros [= <- <-]. auto.
Qed.

Lemma releaseIfAssigned_status (f f' : Flight.t) (w w' : World) :
  Flight.releaseIfAssigned f w = Some (f', w') →
  Flight.m_status f' = Flight.m_status f.
Proof.
  intros H. apply releaseIfAssigned_inv in H as ([-> | ->] & _); done.
Qed.

(** [complete], [cancel] and [divert] share one shape: a guard on the
    transition table, then the status is set. *)
Lemma complete_follows_graph (f f' : Flight.t) (w w' : World) (ok : bool) :
  Flight.complete f w = Some (ok, f', w') →
  (ok = true → edge (Flight.m_status f) Flight.COMPLETED
               ∧ Flight.m_status f' = Flight.COMPLETED)
  ∧ (ok = false → ¬ edge (Flight.m_status f) Flight.COMPLETED
                  ∧ f' = f ∧ w' = w).
Proof.
  unfold Flight.complete.
  pose proof (isValidStatusTransition_edge Flight.COMPLETED f) as Hv.
  destruct (Flight.isValidStatusTransition Flight.COMPLETED f); msimpl.
  - destruct (Flight.releaseIfAssigned f w) as [[f1 w1] |]; [| done].
    intros [= <- <- <-]. split; [| done]. intros _. split; [by apply Hv | done].
  - intros [= <- <- <-]. split; [done |]. intros _.
    split; [| done]. intros He. by apply Hv in He.
Qed.

Lemma cancel_follows_graph
    (reason : string) (f f' : Flight.t) (w w' : World) (ok : bool) :
  Flight.cancel reason f w = Some (ok, f', w') →
  (ok = true → edge (Flight.m_status f) Flight.CANCELED
               ∧ Flight.m_status f' = Flight.CANCELED)
  ∧ (ok = false → ¬ edge (Flight.m_status f) Flight.CANCELED
                  ∧ f' = f ∧ w' = w).
Proof.
  unfold Flight.cancel.
  pose proof (isValidStatusTransition_edge Flight.CANCELED f) as Hv.
  destruct (Flight.isValidStatusTransition Flight.CANCELED f); msimpl.
  - destruct (Flight.releaseIfAssigned f w) as [[f1 w1] |]; [| done].
    intros [= <- <- <-]. split; [| done]. intros _. split; [by apply Hv | done].
  - intros [= <- <- <-]. split; [done |]. intros _.
    split; [| done]. intros He. by apply Hv in He.
Qed.

Lemma divert_follows_graph
    (reason : string) (f f' : Flight.t) (w w' : World) (ok : bool) :
  Flight.divert reason f w = Some (ok, f', w') →
  (ok = true → edge (Flight.m_status f) Flight.DIVERTED
               ∧ Flight.m_status f' = Flight.DIVERTED)
  ∧ (ok = false → ¬ edge (Flight.m_status f) Flight.DIVERTED
                  ∧ f' = f ∧ w' = w).
Proof.
  unfold Flight.divert.
  pose proof (isValidStatusTransition_edge Flight.DIVERTED f) as Hv.
  destruct (Flight.isValidStatusTransition Flight.DIVERTED f); msimpl.
  - destruct (Flight.releaseIfAssigned f w) as [[f1 w1] |]; [| done].
    intros [= <- <- <-]. split; [| done]. intros _. split; [by apply Hv | done].
  - intros [= <- <- <-]. split; [done |]. intros _.
    split; [| done]. intros He. by apply Hv in He.
Qed.

Lemma activate_follows_graph (currentTime : Q) (f : Flight.t) :
  let '(ok, f') := Flight.activate currentTime f in
  (ok = true → Flight.m_status f = Flight.SCHEDULED
               ∧ edge (Flight.m_status f) (Flight.m_status f'))
  ∧ (ok = false → f' = f).
Proof.
  unfold Flight.activate, Flight.isValidStatusTransition,
    Flight.calculateEstimatedCompletionTime.
  destruct f as [id ac st em sch act est rsn rw plan idx]; cbn.
  destruct st; cbn; try done.
  split; [| done]. intros _. split; [done |].
  destruct em; cbn; repeat case_match; cbn; done.
Qed.

(** A second [complete()] on a completed flight fails and changes
    nothing. *)
Lemma complete_twice (f : Flight.t) (w : World) :
  Flight.m_status f = Flight.COMPLETED →
  Flight.complete f w = Some (false, f, w).
Proof.
  intros H. unfold Flight.complete, Flight.isValidStatusTransition.
  by rewrite H.
Qed.

Lemma calculateEstimatedCompletionTime_fields (f : Flight.t) :
  let f' := Flight.calculateEstimatedCompletionTime f in
  Flight.m_status f' = Flight.m_status f
  ∧ Flight.m_flightPlan f' = Flight.m_flightPlan f
  ∧ Flight.m_currentPlanStep f' = Flight.m_currentPlanStep f.
Proof.
  unfold Flight.calculateEstimatedCompletionTime.
  repeat case_match; done.
Qed.

Lemma createEmergencyFlightPlan_status
    (f f' : Flight.t) (w w' : World) (ok : bool) :
  Flight.createEmergencyFlightPlan f w = Some (ok, f', w') →
  Flight.m_status f' = Flight.m_status f.
Proof.
  unfold Flight.createEmergencyFlightPlan, derefAircraft. msimpl.
  repeat (case_match; simplify_eq); msimpl; intros; simplify_eq; done.
Qed.

Lemma createFlightPlan_status (f f' : Flight.t) (w w' : World) (ok : bool) :
  Flight.createFlightPlan f w = Some (ok, f', w') →
  Flight.m_status f' = Flight.m_status f.
Proof.
  unfold Flight.createFlightPlan. cbn.
  destruct (Flight.m_aircraft f) eqn:Ha; msimpl; [| by intros [= <- <- <-]].
  destruct (Flight.m_isEmergency f).
  - intros H. by apply createEmergencyFlightPlan_status in H.
  - unfold derefAircraft, Flight.createArrivalFlightPlan,
      Flight.createDepartureFlightPlan. cbn. rewrite Ha.
    repeat (case_match; simplify_eq); msimpl; intros; simplify_eq; done.
Qed.

Lemma setEmergency_follows_graph
    (isEmergency : bool) (f f' : Flight.t) (w w' : World) :
  Flight.setEmergency isEmergency f w = Some (f', w') →
  follows_graph (Flight.m_status f) (Flight.m_status f').
Proof.
  unfold Flight.setEmergency, follows_graph.
  destruct (bool_decide (Flight.m_status f = Flight.SCHEDULED)
            || bool_decide (Flight.m_status f = Flight.ACTIVE)) eqn:Hguard;
    msimpl; [| intros [= <- <-]; by left].
  destruct isEmergency; cbn.
  - destruct (bool_decide (Flight.m_status f = Flight.EMERGENCY)) eqn:He; cbn.
    { intros [= <- <-]. by left. }
    destruct (Flight.createEmergencyFlightPlan _ w) as [[[ok f1] w1] |] eqn:Hp;
      [| done].
    intros [= <- <-]. apply createEmergencyFlightPlan_status in Hp.
    destruct (calculateEstimatedCompletionTime_fields f1) as (-> & _).
    rewrite Hp. cbn. right.
    destruct (Flight.m_status f); cbn in *; done.
  - destruct (bool_decide (Flight.m_status f = Flight.EMERGENCY)) eqn:He; cbn.
    2: { intros [= <- <-]. by left. }
    apply bool_decide_eq_true_1 in He. rewrite He in Hguard. done.
Qed.

Lemma releaseRunway_inv (f f' : Flight.t) (w w' : World) (ok : bool) :
  Flight.releaseRunway f w = Some (ok, f', w') →
  (f' = f ∨ f' = Flight.with_assignedRunway None f)
  ∧ aircrafts w' = aircrafts w.
Proof.
  unfold Flight.releaseRunway, lock, Runway_releaseAircraft. msimpl.
  destruct (Flight.m_assignedRunway f) as [rp |]; [| by intros [= <- <- <-]; auto].
  destruct (runways w !! rp) as [r |] eqn:Hr; [| by intros [= <- <- <-]; auto].
  cbn. rewrite Hr. destruct (Runway.releaseAircraft _ _ r) as [[] r'];
    cbn; intros [= <- <- <-]; auto.
Qed.

Lemma aircraftTransition_inv (u : Q) (f : Flight.t) (w w' : World) (ok : bool) :
  Flight.aircraftTransition u f w = Some (ok, w') →
  ∃ p a, Flight.m_aircraft f = Some p ∧ aircrafts w !! p = Some a
         ∧ ok = (Aircraft.transitionToNextPhase u a).1
         ∧ w' = mkWorld (<[p := (Aircraft.transitionToNextPhase u a).2]>
                           (aircrafts w))
                        (runways w) (steady_clock w).
Proof.
  unfold Flight.aircraftTransition, derefAircraft, storeAircraft. msimpl.
  destruct (Flight.m_aircraft f) as [p |]; [| done].
  destruct (aircrafts w !! p) as [a |] eqn:Ha; [| done].
  destruct (Aircraft.transitionToNextPhase u a) as [b a'] eqn:Ht. cbn.
  intros [= <- <-]. exists p, a. by rewrite Ht.
Qed.

Lemma call_status
    (op : Flight.Operation) (u : Q) (f f' : Flight.t) (w w' : World) (ok : bool) :
  Flight.call op u f w = Some (ok, f', w') →
  Flight.m_flightPlan f' = Flight.m_flightPlan f
  ∧ Flight.m_currentPlanStep f' = Flight.m_currentPlanStep f
  ∧ (Flight.m_status f' = Flight.m_status f
     ∨ edge (Flight.m_status f) Flight.COMPLETED
       ∧ Flight.m_status f' = Flight.COMPLETED).
Proof.
  destruct op; cbn; msimpl.
  - destruct (Flight.aircraftTransition u f w) as [[b w1] |]; [| done].
    intros [= <- <- <-]. auto.
  - destruct (Flight.releaseRunway f w) as [[[b0 f1] w1] |] eqn:Hr; [| done].
    destruct (Flight.aircraftTransition u f1 w1) as [[b w2] |]; [| done].
    intros [= <- <- <-].
    apply releaseRunway_inv in Hr as ([-> | ->] & _); auto.
  - unfold Flight.complete.
    pose proof (isValidStatusTransition_edge Flight.COMPLETED f) as Hv.
    destruct (Flight.isValidStatusTransition Flight.COMPLETED f); msimpl.
    + destruct (Flight.releaseIfAssigned f w) as [[f1 w1] |] eqn:Hr; [| done].
      intros [= <- <- <-].
      apply releaseIfAssigned_inv in Hr as ([-> | ->] & _); cbn;
        (split; [done |]; split; [done |]; right; split; [by apply Hv | done]).
    + intros [= <- <- <-]. auto.
Qed.

Lemma executeFlightPlanStep_follows_graph
    (currentTime u : Q) (f f' : Flight.t) (w w' : World) (ok : bool) :
  Flight.executeFlightPlanStep currentTime u f w = Some (ok, f', w') →
  follows_graph (Flight.m_status f) (Flight.m_status f').
Proof.
  unfold Flight.executeFlightPlanStep, follows_graph.
  destruct (Flight.m_flightPlan f !! Flight.m_currentPlanStep f) as [s |];
    msimpl; [| intros [= <- <- <-]; by left].
  destruct (Qltb _ _); [intros [= <- <- <-]; by left |].
  destruct (Flight.call (Flight.operation s) u f w) as [[[b f1] w1] |] eqn:Hc;
    msimpl; [| done].
  apply call_status in Hc as (_ & _ & Hst).
  case_bool_decide.
  - destruct (Flight.complete _ w1) as [[[b2 f2] w2] |] eqn:Hcomp; [| done].
    intros [= <- <- <-].
    apply complete_follows_graph in Hcomp as [Hok Hfail]. cbn in *.
    destruct b2.
    + destruct (Hok eq_refl) as [He ->].
      destruct Hst as [Hst | [_ Hst]]; rewrite Hst in He; [by right | done].
    + destruct (Hfail eq_refl) as (_ & -> & _). cbn.
      destruct Hst as [-> | [He ->]]; [by left | by right].
  - intros [= <- <- <-]. cbn.
    destruct Hst as [-> | [He ->]]; [by left | by right].
Qed.

Lemma update_follows_graph
    (deltaTime currentTime : Q) (d : Flight.Draws) (f f' : Flight.t) (w w' : World) :
  Flight.update deltaTime currentTime d f w = Some (f', w') →
  follows_graph (Flight.m_status f) (Flight.m_status f').
Proof.
  unfold Flight.update.
  destruct (Flight.isLive f) eqn:Hlive; msimpl;
    [| intros [= <- <-]; by left].
  assert (Hcont : ∀ w0,
    (if Flight.isReadyForNextPhase currentTime f
     then λ w1, match Flight.executeFlightPlanStep currentTime
                        (Flight.phaseSpeed d) f w1 with
                | Some (x, w2) => (let '(_, f0) := x in λ w3, Some (f0, w3)) w2
                | None => None
                end
     else λ w1, Some (f, w1)) w0 = Some (f', w') →
    follows_graph (Flight.m_status f) (Flight.m_status f')).
  { intros w0. destruct (Flight.isReadyForNextPhase currentTime f).
    - destruct (Flight.executeFlightPlanStep _ _ f w0)
        as [[[b f1] w1] |] eqn:He; [| done].
      intros [= <- <-]. by eapply executeFlightPlanStep_follows_graph.
    - intros [= <- <-]. by left. }
  destruct (Flight.m_aircraft f) as [p |] eqn:Hp; [| apply Hcont].
  unfold derefAircraft, storeAircraft. cbn.
  destruct (aircrafts w !! p) as [a |]; [| done]. cbn.
  destruct (Aircraft.m_hasGroundFault _) eqn:Hfault; [| apply Hcont].
  unfold Flight.handleGroundFault. rewrite Hp. msimpl.
  unfold derefAircraft. cbn. rewrite lookup_insert_eq. cbn. rewrite Hfault.
  destruct (Flight.releaseIfAssigned f _) as [[f1 w1] |] eqn:Hr; [| done].
  intros [= <- <-]. cbn. right.
  unfold Flight.isLive in Hlive.
  destruct (Flight.m_status f); cbn in *; done.
Qed.

Lemma perform_follows_graph
    (o : flight_operation) (f f' : Flight.t) (w w' : World) :
  perform o f w = Some (f', w') →
  follows_graph (Flight.m_status f) (Flight.m_status f').
Proof.
  destruct o as [t | | reason | reason | b | dt t d]; cbn; msimpl.
  - intros [= <- <-]. pose proof (activate_follows_graph t f) as H.
    destruct (Flight.activate t f) as [[] f1]; cbn.
    + right. by apply H.
    + left. destruct H as [_ H]. by rewrite H.
  - destruct (Flight.complete f w) as [[[ok f1] w1] |] eqn:E; [| done].
    intros [= <- <-]. apply complete_follows_graph in E as [Hok Hfail].
    destruct ok.
    + right. destruct (Hok eq_refl) as [He ->]. done.
    + left. by destruct (Hfail eq_refl) as (_ & -> & _).
  - destruct (Flight.cancel reason f w) as [[[ok f1] w1] |] eqn:E; [| done].
    intros [= <- <-]. apply cancel_follows_graph in E as [Hok Hfail].
    destruct ok.
    + right. destruct (Hok eq_refl) as [He ->]. done.
    + left. by destruct (Hfail eq_refl) as (_ & -> & _).
  - destruct (Flight.divert reason f w) as [[[ok f1] w1] |] eqn:E; [| done].
    intros [= <- <-]. apply divert_follows_graph in E as [Hok Hfail].
    destruct ok.
    + right. destruct (Hok eq_refl) as [He ->]. done.
    + left. by destruct (Hfail eq_refl) as (_ & -> & _).
  - apply setEmergency_follows_graph.
  - apply update_follows_graph.
Qed.

(** Without [handleGroundFault], the statuses of a flight form a path in
    the transition graph. *)
Lemma statusTrace_is_path
    (os : list flight_operation) (f : Flight.t) (w w' : World)
    (trace : list Flight.Status) :
  statusTrace os f w = Some (trace, w') →
  is_path (Flight.m_status f) trace.
Proof.
  revert f w trace.
  induction os as [| o os IH]; intros f w trace; cbn; msimpl.
  - by intros [= <- <-].
  - destruct (perform o f w) as [[f1 w1] |] eqn:Hp; [| done].
    destruct (statusTrace os f1 w1) as [[rest w2] |] eqn:Hrest; [| done].
    intros [= <- <-]. cbn. split.
    + by eapply perform_follows_graph.
    + by eapply IH.
Qed.

(** From Scheduled, Active or Emergency the cancellation by
    [handleGroundFault] is an edge; elsewhere it is not. *)
Lemma handleGroundFault_follows_graph_unless_terminal
    (f f' : Flight.t) (w w' : World) (ok : bool) :
  edge (Flight.m_status f) Flight.CANCELED →
  Flight.handleGroundFault f w = Some (ok, f', w') →
  follows_graph (Flight.m_status f) (Flight.m_status f').
Proof.
  intros He. unfold Flight.handleGroundFault, follows_graph.
  destruct (Flight.m_aircraft f) as [p |]; msimpl;
    [| intros [= <- <- <-]; by left].
  unfold derefAircraft. cbn.
  destruct (aircrafts w !! p) as [a |]; [| done]. cbn.
  destruct (Aircraft.m_hasGroundFault a); [| intros [= <- <- <-]; by left].
  destruct (Flight.releaseIfAssigned f w) as [[f1 w2] |]; [| done].
  intros [= <- <- <-]. right. exact He.
Qed.

(** C3.  The claim fails on the code at [handleGroundFault]: called on a
    completed flight whose aircraft carries a ground fault, it returns true
    and sets the status to Canceled, although Completed is terminal and
    Completed → Canceled is not an edge of the graph.  ([cancel], which
    also targets Canceled, is guarded and refuses: see
    [cancel_follows_graph].) *)
Theorem handleGroundFault_cancels_completed_flight :
  Flight.handleGroundFault completedFlight worldAtGate
  = Some (true,
          Flight.with_statusReason "Ground fault detected"
            (Flight.with_status Flight.CANCELED completedFlight),
          worldAtGate)
  ∧ ¬ follows_graph (Flight.m_status completedFlight) Flight.CANCELED
  ∧ Flight.cancel "Ground fault detected" completedFlight worldAtGate
    = Some (false, completedFlight, worldAtGate).
Proof.
  split; [reflexivity |]. split; [| reflexivity].
  unfold follows_graph. cbn. by intros [? | ?].
Qed.

(** ** Flight: executing the plan *)








(** ** Flight: ground faults *)






(** ** Flight: where the plan releases the runway *)


Lemma releaseRunway_by_occupant
    (f : Flight.t) (w : World) (p rp : ptr) (r : Runway.t) :
  Flight.m_aircraft f = Some p →
  Flight.m_assignedRunway f = Some rp → runways w !! rp = Some r →
  Runway.m_status r = Runway.IN_USE → Runway.m_assignedAircraft r = Some p →
  Flight.releaseRunway f w
  = Some (true, Flight.with_assignedRunway None f,
          mkWorld (aircrafts w)
            (<[rp := (Runway.releaseAircraft (steady_clock w) (Some p) r).2]>
               (runways w))
            (steady_clock w)).
Proof.
  intros Hp Hrp Hr Hst Hocc.
  unfold Flight.releaseRunway, lock, Runway_releaseAircraft. msimpl.
  rewrite Hrp, Hr. cbn. rewrite Hr, Hp.
  by rewrite (releaseAircraft_by_occupant _ p r Hst Hocc).
Qed.








(** The four plan builders produce the two operation sequences. *)
Lemma plan_operations :
  Flight.operation <$> Flight.arrivalPlan = arrivalOperations
  ∧ Flight.operation <$> Flight.emergencyArrivalPlan = arrivalOperations
  ∧ Flight.operation <$> Flight.departurePlan = departureOperations
  ∧ Flight.operation <$> Flight.emergencyDeparturePlan = departureOperations.
Proof. done. Qed.

(** The constructor gives an arrival (North, South) one of the two arrival
    plans and a departure (East, West) one of the two departure plans,
    with the step index at 0. *)
Lemma new_plan_operations
    (p : ptr) (a : Aircraft.t) (scheduledTime : Q) (isEmergency : bool) (w : World) :
  aircrafts w !! p = Some a →
  ∃ f,
    Flight.new (Some p) scheduledTime isEmergency w = Some (f, w)
    ∧ Flight.m_status f = Flight.SCHEDULED
    ∧ Flight.m_aircraft f = Some p
    ∧ Flight.m_currentPlanStep f = 0
    ∧ Flight.operation <$> Flight.m_flightPlan f
      = (if Aircraft.isArrival a then arrivalOperations
         else departureOperations).
Proof.
  intros Ha.
  unfold Flight.new, Flight.createFlightPlan, Flight.createEmergencyFlightPlan,
    Flight.createArrivalFlightPlan, Flight.createDepartureFlightPlan,
    derefAircraft.
  msimpl. rewrite Ha. cbn.
  destruct isEmergency; cbn; rewrite Ha; cbn;
    destruct (Aircraft.isArrival a); cbn;
    eexists; (split; [reflexivity |]); cbn; done.
Qed.




(** ** Speed monitor *)

Lemma generateAVN_fields (description : string) (currentTime : Q) (a : Aircraft.t) :
  let a' := SpeedMonitor.generateAVN description currentTime a in
  Aircraft.m_id a' = Aircraft.m_id a
  ∧ Aircraft.m_currentPhase a' = Aircraft.m_currentPhase a
  ∧ Aircraft.m_currentSpeed a' = Aircraft.m_currentSpeed a
  ∧ length (Aircraft.m_activeAVNs a') = S (length (Aircraft.m_activeAVNs a)).
Proof.
  unfold SpeedMonitor.generateAVN, Aircraft.issueAVN. cbn.
  repeat split. rewrite length_app. cbn. lia.
Qed.

(** One call on an aircraft whose speed is out of bounds: a record is
    appended and an AVN is issued, whatever the monitor has recorded
    before. *)
Lemma monitor_fires_when_out_of_bounds
    (p : ptr) (a : Aircraft.t) (currentTime : Q)
    (m : SpeedMonitor.t) (h : aircraft_heap) :
  h !! p = Some a → out_of_bounds a →
  ∃ m' a' v,
    SpeedMonitor.monitorAircraftSpeed (Some p) currentTime m h
    = Some (true, m', <[p := a']> h)
    ∧ SpeedMonitor.m_violations m' = SpeedMonitor.m_violations m ++ [v]
    ∧ SpeedMonitor.aircraftId v = Aircraft.m_id a
    ∧ SpeedMonitor.phase v = Aircraft.m_currentPhase a
    ∧ Aircraft.m_id a' = Aircraft.m_id a
    ∧ Aircraft.m_currentPhase a' = Aircraft.m_currentPhase a
    ∧ Aircraft.m_currentSpeed a' = Aircraft.m_currentSpeed a
    ∧ length (Aircraft.m_activeAVNs a') = S (length (Aircraft.m_activeAVNs a)).
Proof.
  intros Ha Hout. unfold SpeedMonitor.monitorAircraftSpeed. rewrite Ha.
  assert (Hviol :
    Qltb (Aircraft.m_currentSpeed a)
      (lim_min (SpeedMonitor.getSpeedLimitsForPhase (Aircraft.m_currentPhase a)))
    || Qltb (lim_max (SpeedMonitor.getSpeedLimitsForPhase
                        (Aircraft.m_currentPhase a)))
         (Aircraft.m_currentSpeed a) = true).
  { apply orb_true_iff. destruct Hout as [H | H]; [left | right];
      by apply Qltb_lt. }
  rewrite Hviol. cbn.
  eexists _, _, _. split; [reflexivity |]. cbn.
  split; [reflexivity |]. split; [done |]. split; [done |].
  apply generateAVN_fields.
Qed.

Lemma monitorRepeatedly_cons
    (aircraft : option ptr) (currentTime : Q) (times : list Q)
    (m : SpeedMonitor.t) (h : aircraft_heap) :
  SpeedMonitor.monitorRepeatedly aircraft (currentTime :: times) m h
  = match SpeedMonitor.monitorAircraftSpeed aircraft currentTime m h with
    | Some (_, m', h') => SpeedMonitor.monitorRepeatedly aircraft times m' h'
    | None => None
    end.
Proof. reflexivity. Qed.

(** C2, as the code has it.  The monitor keeps no memory of the phases an
    aircraft has already been cited in: every call made while the speed is
    outside the bounds of the current phase appends one violation record
    for that aircraft and phase and issues one AVN.  A run of [n] calls
    during which phase and speed stay the same therefore creates [n]
    records and [n] AVNs. *)
Theorem monitor_fires_on_every_call
    (p : ptr) (a : Aircraft.t) (times : list Q)
    (m : SpeedMonitor.t) (h : aircraft_heap) :
  h !! p = Some a → out_of_bounds a →
  ∃ m' h' a' vs,
    SpeedMonitor.monitorRepeatedly (Some p) times m h = Some (m', h')
    ∧ SpeedMonitor.m_violations m' = SpeedMonitor.m_violations m ++ vs
    ∧ length vs = length times
    ∧ Forall (λ v, SpeedMonitor.aircraftId v = Aircraft.m_id a
                   ∧ SpeedMonitor.phase v = Aircraft.m_currentPhase a) vs
    ∧ h' !! p = Some a'
    ∧ Aircraft.m_currentPhase a' = Aircraft.m_currentPhase a
    ∧ length (Aircraft.m_activeAVNs a')
      = length (Aircraft.m_activeAVNs a) + length times.
Proof.
  revert a m h.
  induction times as [| currentTime times IH]; intros a m h Ha Hout.
  - exists m, h, a, []. cbn. rewrite app_nil_r.
    repeat split; try done; lia.
  - destruct (monitor_fires_when_out_of_bounds p a currentTime m h Ha Hout)
      as (m1 & a1 & v & Hcall & Hvs & Hid & Hph & Hid1 & Hph1 & Hsp1 & Havn).
    rewrite monitorRepeatedly_cons, Hcall.
    destruct (IH a1 m1 (<[p := a1]> h)) as
      (m' & h' & a' & vs & Hrun & Hvs' & Hlen & Hall & Ha' & Hph' & Havn').
    { apply lookup_insert_eq. }
    { unfold out_of_bounds in *. by rewrite Hph1, Hsp1. }
    exists m', h', a', (v :: vs). rewrite Hrun, Hvs', Hvs, <- app_assoc.
    repeat split; try done.
    + cbn. by rewrite Hlen.
    + constructor; [done |]. by rewrite <- Hid1, <- Hph1.
    + by rewrite Hph'.
    + rewrite Havn', Havn. cbn. lia.
Qed.

Lemma monitor_fires_on_every_call_witness :
  ∃ m' h' a' vs,
    SpeedMonitor.monitorRepeatedly (Some 1) [1%Q; 2%Q; 3%Q]
      SpeedMonitor.new heap650 = Some (m', h')
    ∧ SpeedMonitor.m_violations m' = vs
    ∧ length vs = 3
    ∧ h' !! 1 = Some a'
    ∧ Aircraft.m_currentPhase a' = HOLDING
    ∧ length (Aircraft.m_activeAVNs a') = 3.
Proof.
  destruct (monitor_fires_on_every_call 1 holding650 [1%Q; 2%Q; 3%Q]
              SpeedMonitor.new heap650)
    as (m' & h' & a' & vs & Hrun & Hvs & Hlen & _ & Ha' & Hph & Havn).
  - reflexivity.
  - right. by vm_compute.
  - exists m', h', a', vs. repeat split; done.
Defined.

(** C2 as stated fails: the aircraft stays in Holding at 650 km/h, the
    monitor is called twice, and two violation records and two AVNs
    result, both for the phase Holding. *)
Lemma duplicate_AVN_counterexample :
  ∃ m h a,
    SpeedMonitor.monitorRepeatedly (Some 1) [1%Q; 2%Q] SpeedMonitor.new heap650
    = Some (m, h)
    ∧ SpeedMonitor.phase <$> SpeedMonitor.m_violations m = [HOLDING; HOLDING]
    ∧ SpeedMonitor.aircraftId <$> SpeedMonitor.m_violations m
      = ["PIA101"; "PIA101"]
    ∧ h !! 1 = Some a
    ∧ Aircraft.m_currentPhase a = HOLDING
    ∧ length (Aircraft.m_activeAVNs a) = 2.
Proof.
  eexists _, _, _. split; [by vm_compute |].
  split; [reflexivity |]. split; [reflexivity |].
  split; [by vm_compute |]. split; reflexivity.
Qed.

(** ** Airline scheduling *)







(** * Further properties of the code *)

(** ** Aircraft: phases and speed *)

Lemma interpolation_bounds (lo hi u : Q) :
  (lo <= hi)%Q → (0 <= u)%Q → (u <= 1)%Q →
  (lo <= lo + u * (hi - lo))%Q ∧ (lo + u * (hi - lo) <= hi)%Q.
Proof. intros. split; nra. Qed.

Lemma generateRandomSpeedForPhase_in_bounds (u : Q) (p : FlightPhase) :
  (0 <= u)%Q → (u <= 1)%Q →
  let limits := SpeedMonitor.getSpeedLimitsForPhase p in
  (lim_min limits <= Aircraft.generateRandomSpeedForPhase u p)%Q
  ∧ (Aircraft.generateRandomSpeedForPhase u p <= lim_max limits)%Q.
Proof.
  intros H0 H1.
  unfold Aircraft.generateRandomSpeedForPhase,
    SpeedMonitor.getSpeedLimitsForPhase.
  destruct (SPEED_LIMITS_total p) as [limits Hl]. rewrite Hl. cbv zeta.
  apply interpolation_bounds; [| done | done].
  by eapply SPEED_LIMITS_ordered.
Qed.

Lemma isSpeedValid_bounds (a : Aircraft.t) :
  Aircraft.isSpeedValid a = true
  ↔ (lim_min (SpeedMonitor.getSpeedLimitsForPhase (Aircraft.m_currentPhase a))
     <= Aircraft.m_currentSpeed a)%Q
    ∧ (Aircraft.m_currentSpeed a
       <= lim_max (SpeedMonitor.getSpeedLimitsForPhase
                     (Aircraft.m_currentPhase a)))%Q.
Proof.
  unfold Aircraft.isSpeedValid, SpeedMonitor.getSpeedLimitsForPhase.
  destruct (SPEED_LIMITS_total (Aircraft.m_currentPhase a)) as [limits ->].
  rewrite andb_true_iff, !Qle_bool_iff. done.
Qed.

(** X1.  [transitionToNextPhase] fails exactly in the two terminal phases
    (AT_GATE_ARRIVAL, CRUISE) and then changes nothing.  Otherwise it
    returns true, moves the aircraft one phase forward within its own
    chain, leaves identity, kind, direction, runway, fault flag and AVNs
    alone, and, for a draw in [0,1], gives it a speed that [isSpeedValid]
    accepts for the new phase. *)
Theorem transitionToNextPhase_advances_one_phase (u : Q) (a : Aircraft.t) :
  (0 <= u)%Q → (u <= 1)%Q →
  let '(ok, a') := Aircraft.transitionToNextPhase u a in
  (ok = false ↔ Aircraft.m_currentPhase a = AT_GATE_ARRIVAL
                ∨ Aircraft.m_currentPhase a = CRUISE)
  ∧ (ok = false → a' = a)
  ∧ (ok = true →
       phase_rank (Aircraft.m_currentPhase a')
       = S (phase_rank (Aircraft.m_currentPhase a))
       ∧ arrival_phase (Aircraft.m_currentPhase a')
         = arrival_phase (Aircraft.m_currentPhase a)
       ∧ Aircraft.isSpeedValid a' = true
       ∧ a' = Aircraft.with_speed (Aircraft.m_currentSpeed a')
                (Aircraft.with_phase (Aircraft.m_currentPhase a') a)).
Proof.
  intros H0 H1. unfold Aircraft.transitionToNextPhase.
  unfold Aircraft.isValidTransition, Aircraft.getNextPhase.
  destruct (Aircraft.m_currentPhase a) eqn:Hph; cbn;
    try (rewrite bool_decide_eq_true_2 by done); cbn;
    (split; [split; [intros ?; try done; auto | intros [? | ?]; done] |]);
    (split; [done |]); intros Hok; try done;
    repeat split;
    apply isSpeedValid_bounds; cbn;
    match goal with
    | |- context [Aircraft.generateRandomSpeedForPhase u ?p] =>
        apply (generateRandomSpeedForPhase_in_bounds u p H0 H1)
    end.
Qed.

Lemma transitionToNextPhase_witness :
  Aircraft.isSpeedValid (Aircraft.transitionToNextPhase (1 # 2) freshEast).2
  = true.
Proof.
  pose proof (transitionToNextPhase_advances_one_phase (1 # 2) freshEast) as H.
  destruct (Aircraft.transitionToNextPhase (1 # 2) freshEast) as [ok a'] eqn:E.
  assert (Hok : ok = true) by (vm_compute in E; congruence).
  destruct H as (_ & _ & H); [by vm_compute | by vm_compute |].
  exact (proj1 (proj2 (proj2 (H Hok)))).
Defined.

Lemma transitionToNextPhase_cases (u : Q) (a : Aircraft.t) :
  let '(ok, a') := Aircraft.transitionToNextPhase u a in
  (ok = false ∧ a' = a ∧ phase_rank (Aircraft.m_currentPhase a) = 4)
  ∨ (ok = true
     ∧ phase_rank (Aircraft.m_currentPhase a')
       = S (phase_rank (Aircraft.m_currentPhase a))
     ∧ arrival_phase (Aircraft.m_currentPhase a')
       = arrival_phase (Aircraft.m_currentPhase a)
     ∧ phase_rank (Aircraft.m_currentPhase a) < 4).
Proof.
  unfold Aircraft.transitionToNextPhase, Aircraft.isValidTransition,
    Aircraft.getNextPhase.
  destruct (Aircraft.m_currentPhase a) eqn:Hph; cbn;
    try (rewrite bool_decide_eq_true_2 by done); cbn;
    rewrite ?Hph; cbn; first [by left | right; repeat split; lia].
Qed.

Lemma transitions_cons (u : Q) (us : list Q) (a : Aircraft.t) :
  Aircraft.transitions (u :: us) a
  = ((Aircraft.transitionToNextPhase u a).1
       :: (Aircraft.transitions us (Aircraft.transitionToNextPhase u a).2).1,
     (Aircraft.transitions us (Aircraft.transitionToNextPhase u a).2).2).
Proof.
  cbn. destruct (Aircraft.transitionToNextPhase u a) as [ok a1]. cbn.
  by destruct (Aircraft.transitions us a1).
Qed.

(** X2.  Phase progress is monotonic and stops at the end of the chain:
    of [n] consecutive calls of [transitionToNextPhase] on an aircraft at
    position [r] of its chain (0 = first phase, 4 = terminal), exactly the
    first [min n (4 - r)] return true and all later ones return false; the
    aircraft ends at position [min (r + n) 4] of the same chain.  A new
    aircraft therefore reaches its terminal phase after four transitions
    and never leaves it. *)
Theorem transitions_stop_at_terminal_phase (us : list Q) (a : Aircraft.t) :
  let r := phase_rank (Aircraft.m_currentPhase a) in
  let k := min (length us) (4 - r) in
  (Aircraft.transitions us a).1
  = replicate k true ++ replicate (length us - k) false
  ∧ phase_rank (Aircraft.m_currentPhase (Aircraft.transitions us a).2)
    = min (r + length us) 4
  ∧ arrival_phase (Aircraft.m_currentPhase (Aircraft.transitions us a).2)
    = arrival_phase (Aircraft.m_currentPhase a).
Proof.
  revert a. induction us as [| u us IH]; intros a.
  - assert (Hr : phase_rank (Aircraft.m_currentPhase a) ≤ 4)
      by (destruct (Aircraft.m_currentPhase a); cbn; lia).
    cbn. repeat split; try done; lia.
  - rewrite transitions_cons. cbn [fst snd length].
    pose proof (transitionToNextPhase_cases u a) as Hc.
    destruct (Aircraft.transitionToNextPhase u a) as [ok a1].
    cbn [fst snd].
    destruct (IH a1) as (Hoks & Hrank & Harr).
    rewrite Hoks, Hrank, Harr.
    destruct Hc as [(-> & -> & Hr) | (-> & Hr & Ha & Hlt)].
    + rewrite Hr.
      replace (min (length us) (4 - 4)) with 0 by lia.
      replace (min (S (length us)) (4 - 4)) with 0 by lia.
      rewrite !Nat.sub_0_r. cbn. repeat split; try done; lia.
    + rewrite Hr, Ha.
      set (r := phase_rank (Aircraft.m_currentPhase a)) in *.
      replace (min (S (length us)) (4 - r))
        with (S (min (length us) (4 - S r))) by lia.
      cbn [replicate app Nat.sub].
      repeat split; try done; lia.
Qed.

Lemma step_keeps_identity (c : Aircraft.call) (a : Aircraft.t) :
  let a' := Aircraft.step c a in
  Aircraft.m_id a' = Aircraft.m_id a
  ∧ Aircraft.m_type a' = Aircraft.m_type a
  ∧ Aircraft.m_direction a' = Aircraft.m_direction a
  ∧ Aircraft.m_airline a' = Aircraft.m_airline a
  ∧ (Aircraft.m_hasGroundFault a = true → Aircraft.m_hasGroundFault a' = true)
  ∧ Aircraft.m_activeAVNs a `prefix_of` Aircraft.m_activeAVNs a'
  ∧ phase_rank (Aircraft.m_currentPhase a)
    ≤ phase_rank (Aircraft.m_currentPhase a')
  ∧ arrival_phase (Aircraft.m_currentPhase a')
    = arrival_phase (Aircraft.m_currentPhase a).
Proof.
  destruct c as [id | u | dv | v | reason | draw | dt sd fd]; cbn.
  - done.
  - pose proof (transitionToNextPhase_cases u a) as Hc.
    unfold Aircraft.transitionToNextPhase in *.
    destruct (Aircraft.isValidTransition _ a); cbn in *.
    + destruct Hc as [(? & _) | (_ & Hr & Ha & _)]; [done |].
      repeat split; try done. lia.
    + done.
  - done.
  - done.
  - repeat split; try done. by apply prefix_app_r.
  - unfold Aircraft.simulateGroundFault.
    destruct (_ && _); cbn; done.
  - unfold Aircraft.update. cbn.
    destruct (_ && _) eqn:Hg; cbn; [| done].
    destruct (Qltb fd _); cbn; done.
Qed.

(** X3.  Under any sequence of the public mutating operations of an
    aircraft (assignRunway, transitionToNextPhase, updateSpeed, setSpeed,
    issueAVN, simulateGroundFault, update) its id, kind, direction and
    airline never change, a ground fault once set is never cleared, AVNs
    are only ever appended, and the phase never moves backward or to the
    other chain. *)
Theorem aircraft_run_invariants (cs : list Aircraft.call) (a : Aircraft.t) :
  let a' := Aircraft.run cs a in
  Aircraft.m_id a' = Aircraft.m_id a
  ∧ Aircraft.m_type a' = Aircraft.m_type a
  ∧ Aircraft.m_direction a' = Aircraft.m_direction a
  ∧ Aircraft.m_airline a' = Aircraft.m_airline a
  ∧ (Aircraft.m_hasGroundFault a = true → Aircraft.m_hasGroundFault a' = true)
  ∧ Aircraft.m_activeAVNs a `prefix_of` Aircraft.m_activeAVNs a'
  ∧ phase_rank (Aircraft.m_currentPhase a)
    ≤ phase_rank (Aircraft.m_currentPhase a')
  ∧ arrival_phase (Aircraft.m_currentPhase a')
    = arrival_phase (Aircraft.m_currentPhase a).
Proof.
  revert a. unfold Aircraft.run.
  induction cs as [| c cs IH]; intros a; cbn.
  - done.
  - destruct (step_keeps_identity c a)
      as (H1 & H2 & H3 & H4 & H5 & H6 & H7 & H8).
    destruct (IH (Aircraft.step c a))
      as (I1 & I2 & I3 & I4 & I5 & I6 & I7 & I8).
    rewrite I1, I2, I3, I4, I8.
    repeat split; try done.
    + intros Hf. by apply I5, H5.
    + by etrans.
    + lia.
Qed.

(** X4.  A ground fault is raised on the ground only: if one operation
    turns the fault flag on, the operation is [simulateGroundFault] or
    [update] and the aircraft is in TaxiIn, AtGateArrival, AtGateDeparture
    or TaxiOut, before and after it. *)
Theorem fault_raised_only_in_ground_phase (c : Aircraft.call) (a : Aircraft.t) :
  Aircraft.m_hasGroundFault a = false →
  Aircraft.m_hasGroundFault (Aircraft.step c a) = true →
  Aircraft.isGroundPhase (Aircraft.m_currentPhase a) = true
  ∧ Aircraft.m_currentPhase (Aircraft.step c a) = Aircraft.m_currentPhase a
  ∧ ((∃ draw, c = Aircraft.SimulateGroundFault draw)
     ∨ ∃ dt sd fd, c = Aircraft.Update dt sd fd).
Proof.
  intros Hclear.
  destruct c as [id | u | dv | v | reason | draw | dt sd fd]; cbn;
    try (rewrite Hclear; done).
  - unfold Aircraft.transitionToNextPhase.
    destruct (Aircraft.isValidTransition _ a); cbn; by rewrite Hclear.
  - unfold Aircraft.simulateGroundFault.
    destruct (Aircraft.isGroundPhase _) eqn:Hg; cbn.
    + destruct (Qltb draw _); cbn; [| by rewrite Hclear].
      intros _. repeat split. left. by eexists.
    + by rewrite Hclear.
  - unfold Aircraft.update. cbn.
    destruct (Aircraft.isGroundPhase _) eqn:Hg; cbn.
    + rewrite Hclear. cbn. destruct (Qltb fd _); cbn; [| by rewrite Hclear].
      intros _. repeat split. right. by eexists _, _, _.
    + by rewrite Hclear.
Qed.

Lemma fault_raised_only_in_ground_phase_witness :
  Aircraft.isGroundPhase (Aircraft.m_currentPhase taxiOutClear) = true
  ∧ Aircraft.m_currentPhase (Aircraft.step (Aircraft.Update 1000 0 0) taxiOutClear)
    = TAXI_OUT.
Proof.
  destruct (fault_raised_only_in_ground_phase (Aircraft.Update 1000 0 0)
              taxiOutClear) as (Hg & Hph & _).
  - reflexivity.
  - by vm_compute.
  - split; [exact Hg | exact Hph].
Defined.

(** X5.  The speed is valid whenever the code chooses it: a newly
    constructed aircraft (draw in [0,1]) starts in Holding when it comes
    from North or South and at the departure gate otherwise, with a speed
    [isSpeedValid] accepts, no runway, no fault and no AVN; and after
    [updateSpeed], from whatever speed and with whatever delta,
    [isSpeedValid] holds again. *)
Theorem speed_valid_after_construction_and_updateSpeed
    (id : string) (type : AircraftType) (direction : FlightDirection)
    (airline : option string) (u : Q) :
  (0 <= u)%Q → (u <= 1)%Q →
  let a := Aircraft.new id type direction airline u in
  Aircraft.isSpeedValid a = true
  ∧ Aircraft.m_currentPhase a
    = (if Aircraft.isArrival a then HOLDING else AT_GATE_DEPARTURE)
  ∧ Aircraft.m_assignedRunway a = None
  ∧ Aircraft.m_hasGroundFault a = false
  ∧ Aircraft.m_activeAVNs a = []
  ∧ ∀ (b : Aircraft.t) (speedDelta : Q),
      Aircraft.isSpeedValid (Aircraft.updateSpeed speedDelta b).2 = true.
Proof.
  intros H0 H1. cbv zeta. split; [| split; [| split; [| split; [| split]]]];
    try done.
  - apply isSpeedValid_bounds. unfold Aircraft.new. cbn.
    apply generateRandomSpeedForPhase_in_bounds; done.
  - intros b speedDelta. apply isSpeedValid_bounds.
    unfold Aircraft.updateSpeed, SpeedMonitor.getSpeedLimitsForPhase.
    cbn [snd Aircraft.m_currentPhase Aircraft.m_currentSpeed
         Aircraft.with_speed].
    destruct (SPEED_LIMITS_total (Aircraft.m_currentPhase b)) as [limits Hl].
    rewrite Hl. apply clamp_bounds. by eapply SPEED_LIMITS_ordered.
Qed.

Lemma speed_valid_after_construction_witness :
  Aircraft.isSpeedValid freshEast = true
  ∧ Aircraft.m_currentPhase freshEast = AT_GATE_DEPARTURE.
Proof.
  destruct (speed_valid_after_construction_and_updateSpeed
              "AB731" COMMERCIAL EAST (Some "AirBlue") (1 # 2))
    as (Hv & Hph & _).
  - by vm_compute.
  - by vm_compute.
  - split; [exact Hv | exact Hph].
Defined.

(** ** Runway: release, closure and the usage counters *)

(** X6.  [releaseAircraft] succeeds exactly when the runway is InUse and
    the caller is the stored occupant (a null pointer never is); a failed
    release changes nothing, a successful one leaves the runway Available
    and unoccupied, keeps id and usage count, and adds the whole seconds
    since the assignment to the total usage time. *)
Theorem releaseAircraft_succeeds_iff
    (now : Z) (aircraft : option ptr) (r : Runway.t) :
  let '(ok, r') := Runway.releaseAircraft now aircraft r in
  (ok = true ↔
     Runway.m_status r = Runway.IN_USE
     ∧ ∃ p, aircraft = Some p ∧ Runway.m_assignedAircraft r = Some p)
  ∧ (ok = false → r' = r)
  ∧ (ok = true →
       r' = Runway.mk (Runway.m_id r) Runway.AVAILABLE None
              (Runway.m_usageCount r)
              (Runway.m_totalUsageTime r
               + inject_Z (Runway.seconds_between now
                             (Runway.m_lastAssignmentTime r)))
              (Runway.m_lastAssignmentTime r)).
Proof.
  unfold Runway.releaseAircraft.
  destruct (decide (Runway.m_status r = Runway.IN_USE)) as [Hst | Hst].
  2: { rewrite bool_decide_eq_false_2 by done. cbn.
       repeat split; try done. by intros [? _]. }
  rewrite bool_decide_eq_true_2 by done. cbn.
  destruct (Runway.m_assignedAircraft r) as [p |] eqn:Hocc.
  2: { repeat split; try done. by intros (_ & q & _ & ?). }
  destruct (decide (Some p = aircraft)) as [<- | Hne].
  - rewrite bool_decide_eq_true_2 by done. cbn.
    repeat split; try done. by exists p.
  - rewrite bool_decide_eq_false_2 by done. cbn.
    repeat split; try done. intros (_ & q & -> & [= ->]). done.
Qed.

Lemma step_usage
    (c : Runway.call) (r r' : Runway.t) (h h' : aircraft_heap) (ok : bool) :
  Runway.step c r h = Some (ok, r', h') →
  (Runway.m_lastAssignmentTime r ≤ Runway.call_time c)%Z →
  (Runway.m_lastAssignmentTime r' ≤ Runway.call_time c)%Z
  ∧ (Runway.m_totalUsageTime r <= Runway.m_totalUsageTime r')%Q
  ∧ Runway.m_usageCount r'
    = (if match c with Runway.AssignAircraft _ _ => ok | _ => false end
       then int_wrap (Runway.m_usageCount r + 1)
       else Runway.m_usageCount r).
Proof.
  destruct c as [now a | now a | now s]; cbn; intros Hstep Hclock.
  - destruct ok.
    + apply assignAircraft_true_inv in Hstep as (_ & p & _ & ->). cbn.
      split; [lia | split; [apply Qle_refl | done]].
    + unfold Runway.assignAircraft in Hstep.
      repeat (case_match; simplify_eq);
        (split; [done | split; [apply Qle_refl | done]]).
  - unfold Runway.releaseAircraft in Hstep.
    repeat (case_match; simplify_eq); cbn;
      (split; [done | split; [| done]]);
      first [apply Qle_refl
            | by apply Qle_plus_nonneg, seconds_between_nonneg].
  - unfold Runway.setStatus in Hstep. injection Hstep as <- <- <-. cbn.
    split; [done | split; [| done]].
    repeat case_match;
      first [apply Qle_refl
            | by apply Qle_plus_nonneg, seconds_between_nonneg].
Qed.

(** X7.  Usage accounting along any trace of assignAircraft,
    releaseAircraft and setStatus calls made with clock readings that do
    not run backwards: the usage count at the end is the count at the start
    plus the number of successful assignments (short of [INT_MAX]), and
    the total usage time never decreases. *)
Theorem usage_accounting_along_trace
    (cs : list Runway.call) (r r' : Runway.t) (h h' : aircraft_heap)
    (log : list (Runway.call * bool)) :
  Runway.runLog cs r h = Some (log, r', h') →
  clock_monotone (Runway.m_lastAssignmentTime r) cs →
  (INT_MIN ≤ Runway.m_usageCount r)%Z →
  (Runway.m_usageCount r + Z.of_nat (length cs) ≤ INT_MAX)%Z →
  Runway.m_usageCount r'
  = (Runway.m_usageCount r + Z.of_nat (successful_assignments log))%Z
  ∧ (Runway.m_totalUsageTime r <= Runway.m_totalUsageTime r')%Q
  ∧ log.*1 = cs.
Proof.
  revert r h log.
  induction cs as [| c cs IH]; intros r h log; cbn.
  - intros [= <- <- <-] _ _ _. cbn.
    split; [lia | split; [apply Qle_refl | done]].
  - destruct (Runway.step c r h) as [[[ok r1] h1] |] eqn:Hstep; [| done].
    destruct (Runway.runLog cs r1 h1) as [[[log1 r2] h2] |] eqn:Hrun; [| done].
    intros [= <- <- <-] [Hc Hmono] Hlo Hhi.
    destruct (step_usage c r r1 h h1 ok Hstep Hc) as (Hlast & Htime & Hcount).
    assert (Hcount' :
      Runway.m_usageCount r1
      = (Runway.m_usageCount r
         + Z.of_nat (successful_assignments [(c, ok)]))%Z).
    { rewrite Hcount. destruct c as [now a | now a | now s]; cbn; try lia.
      destruct ok; cbn; [| lia].
      apply int_wrap_id. unfold INT_MIN, INT_MAX in *. lia. }
    assert (Hle : (successful_assignments [(c, ok)] ≤ 1)%nat).
    { destruct c, ok; cbn; lia. }
    destruct (IH r1 h1 log1 Hrun) as (Hcnt & Htm & Hlog).
    + clear -Hmono Hlast.
      destruct cs as [| c' cs]; [done |]. cbn in *.
      destruct Hmono as [H1 H2]. split; [lia | done].
    + lia.
    + lia.
    + rewrite Hcnt, Hcount'. cbn [fmap list_fmap fst]. rewrite Hlog.
      split; [| split; [by eapply Qle_trans | done]].
      destruct c as [now a | now a | now s], ok; cbn; lia.
Qed.

Lemma usage_accounting_witness :
  ∃ log r' h',
    Runway.runLog traceC (Runway.new RWY_C 0) heap1 = Some (log, r', h')
    ∧ log.*2 = [true; false; true; true; true; true]
    ∧ Runway.m_usageCount r' = 2%Z
    ∧ (0 <= Runway.m_totalUsageTime r')%Q.
Proof.
  destruct (Runway.runLog traceC (Runway.new RWY_C 0) heap1)
    as [[[log r'] h'] |] eqn:Hrun; [| by vm_compute in Hrun].
  destruct (usage_accounting_along_trace traceC (Runway.new RWY_C 0) r'
              heap1 h' log Hrun) as (Hcount & Htime & _).
  - cbn. lia.
  - by vm_compute.
  - by vm_compute.
  - exists log, r', h'. split; [reflexivity |].
    assert (Hlog : log.*2 = [true; false; true; true; true; true])
      by (vm_compute in Hrun; by injection Hrun as <- _ _).
    split; [exact Hlog |]. split; [| exact Htime].
    rewrite Hcount.
    vm_compute in Hrun. by injection Hrun as <- _ _.
Defined.

(** X8.  Forced closure.  [setStatus] to Maintenance or WeatherClosed on a
    runway that is InUse with an occupant returns true, evicts the
    occupant, keeps the usage count and adds the whole seconds since the
    assignment to the total usage time, which is exactly what
    [getTotalUsageTime] reported at that instant.  On the closed runway
    every assignment is refused and the evicted aircraft can no longer
    release: both calls fail and change nothing. *)
Theorem forced_closure_evicts_occupant
    (now : Z) (status : Runway.Status) (p : ptr) (r : Runway.t) :
  Runway.m_status r = Runway.IN_USE →
  Runway.m_assignedAircraft r = Some p →
  status = Runway.MAINTENANCE ∨ status = Runway.WEATHER_CLOSED →
  let r' := (Runway.setStatus now status r).2 in
  (Runway.setStatus now status r).1 = true
  ∧ r' = Runway.mk (Runway.m_id r) status None (Runway.m_usageCount r)
           (Runway.getTotalUsageTime now r) (Runway.m_lastAssignmentTime r)
  ∧ Runway.getTotalUsageTime now r
    = (Runway.m_totalUsageTime r
       + inject_Z (Runway.seconds_between now (Runway.m_lastAssignmentTime r)))%Q
  ∧ (∀ now' aircraft h,
       Runway.assignAircraft now' aircraft r' h = Some (false, r', h))
  ∧ (∀ now' aircraft, Runway.releaseAircraft now' aircraft r' = (false, r')).
Proof.
  intros Hst Hocc Hclose. cbv zeta.
  assert (Hr' : Runway.setStatus now status r
                = (true,
                   Runway.mk (Runway.m_id r) status None (Runway.m_usageCount r)
                     (Runway.getTotalUsageTime now r)
                     (Runway.m_lastAssignmentTime r))).
  { unfold Runway.setStatus, Runway.getTotalUsageTime. rewrite Hst, Hocc.
    destruct Hclose as [-> | ->]; reflexivity. }
  rewrite Hr'. cbn [fst snd].
  split; [done |]. split; [done |]. split.
  { unfold Runway.getTotalUsageTime. by rewrite Hst, Hocc. }
  split.
  - intros now' aircraft h. unfold Runway.assignAircraft. cbn.
    by destruct Hclose as [-> | ->].
  - intros now' aircraft. unfold Runway.releaseAircraft. cbn.
    by destruct Hclose as [-> | ->].
Qed.

Lemma forced_closure_witness :
  (Runway.setStatus 65000000000 Runway.MAINTENANCE busyB).2
  = Runway.mk RWY_B Runway.MAINTENANCE None 3
      (Runway.getTotalUsageTime 65000000000 busyB) 5000000000
  ∧ Runway.getTotalUsageTime 65000000000 busyB = (60 + inject_Z 60)%Q.
Proof.
  destruct (forced_closure_evicts_occupant 65000000000 Runway.MAINTENANCE 1
              busyB eq_refl eq_refl (or_introl eq_refl))
    as (_ & Hr' & Htime & _).
  split; [exact Hr' | exact Htime].
Defined.

(** X9.  Eligibility leaves every flight a runway and keeps RWY-C
    exclusive: by direction and kind together, RWY-A is eligible exactly
    for arrivals (North, South), RWY-B exactly for departures (East,
    West), so exactly one of the two is; RWY-C is eligible exactly for
    Cargo and Emergency aircraft, whatever the direction. *)
Theorem eligibility_partition (direction : FlightDirection) (kind : AircraftType) :
  eligibleb RWY_A direction kind
  = bool_decide (Aircraft.setInitialPhase direction = HOLDING)
  ∧ eligibleb RWY_B direction kind = negb (eligibleb RWY_A direction kind)
  ∧ eligibleb RWY_C direction kind = negb (bool_decide (kind = COMMERCIAL)).
Proof. by destruct direction, kind. Qed.

(** ** Flight: runway, activation, emergency *)

Lemma lock_live (f : Flight.t) (w : World) :
  (∃ q, lock (Flight.m_assignedRunway f) w = Some (Some q, w)
        ∧ holds_live_runway f w)
  ∨ (lock (Flight.m_assignedRunway f) w = Some (None, w)
     ∧ ¬ holds_live_runway f w).
Proof.
  unfold lock, holds_live_runway.
  destruct (Flight.m_assignedRunway f) as [q |].
  - destruct (runways w !! q) as [r |] eqn:Hq.
    + left. exists q. split; [done |]. by exists q, r.
    + right. split; [done |]. intros (q' & r & [= <-] & Hr). congruence.
  - right. split; [done |]. by intros (q & r & ? & _).
Qed.

Lemma assignAircraft_available
    (now : Z) (p : ptr) (r : Runway.t) (h : aircraft_heap) (a : Aircraft.t) :
  h !! p = Some a →
  Runway.m_status r = Runway.AVAILABLE →
  Runway.canUseForDirection (Aircraft.m_direction a) r = true →
  Runway.canUseForAircraftType (Aircraft.m_type a) r = true →
  Runway.assignAircraft now (Some p) r h
  = Some (true,
          Runway.mk (Runway.m_id r) Runway.IN_USE (Some p)
            (int_wrap (Runway.m_usageCount r + 1))
            (Runway.m_totalUsageTime r) now,
          <[p := Aircraft.assignRunway (Runway.m_id r) a]> h).
Proof.
  intros Ha Hst Hd Hk. unfold Runway.assignAircraft.
  rewrite Hst, Ha, Hd, Hk. done.
Qed.

(** X10.  [Flight::assignRunway] (aircraft and runway being live objects)
    succeeds exactly when the flight is Scheduled, Active or Emergency,
    holds no live runway yet, the runway is Available and the aircraft is
    eligible for it.  A failed call changes neither the flight nor any
    object.  After a successful call the flight refers to the runway, the
    runway is InUse with the flight's aircraft as occupant, the aircraft
    records the runway's id, and every further [assignRunway] of the
    flight, to whatever runway, fails without effect. *)
Theorem Flight_assignRunway_succeeds_iff
    (rp p : ptr) (f : Flight.t) (w : World) (a : Aircraft.t) (r : Runway.t) :
  Flight.m_aircraft f = Some p → aircrafts w !! p = Some a →
  runways w !! rp = Some r →
  ∃ ok f' w',
    Flight.assignRunway (Some rp) f w = Some (ok, f', w')
    ∧ (ok = true ↔
         may_request_runway (Flight.m_status f)
         ∧ ¬ holds_live_runway f w
         ∧ Runway.m_status r = Runway.AVAILABLE
         ∧ eligible (Runway.m_id r) (Aircraft.m_direction a) (Aircraft.m_type a))
    ∧ (ok = false → f' = f ∧ w' = w)
    ∧ (ok = true →
         f' = Flight.with_assignedRunway (Some rp) f
         ∧ occupied_by w' rp p
         ∧ Aircraft.m_assignedRunway <$> aircrafts w' !! p
           = Some (Some (Runway.m_id r))
         ∧ ∀ runway, Flight.assignRunway runway f' w' = Some (false, f', w')).
Proof.
  intros Hp Ha Hr.
  assert (Hfail : ∀ P : Prop, ¬ P →
    ∃ ok f' w',
      Some (false, f, w) = Some (ok, f', w')
      ∧ (ok = true ↔ P)
      ∧ (ok = false → f' = f ∧ w' = w)
      ∧ (ok = true →
           f' = Flight.with_assignedRunway (Some rp) f
           ∧ occupied_by w' rp p
           ∧ Aircraft.m_assignedRunway <$> aircrafts w' !! p
             = Some (Some (Runway.m_id r))
           ∧ ∀ runway, Flight.assignRunway runway f' w' = Some (false, f', w'))).
  { intros P HP. exists false, f, w. repeat split; try done. }
  unfold Flight.assignRunway.
  destruct (decide (may_request_runway (Flight.m_status f))) as [Hreq | Hreq].
  2: { replace (negb (bool_decide (Flight.m_status f = Flight.SCHEDULED))
                && negb (bool_decide (Flight.m_status f = Flight.ACTIVE))
                && negb (bool_decide (Flight.m_status f = Flight.EMERGENCY)))
         with true.
       - apply Hfail. by intros [? _].
       - unfold may_request_runway in Hreq.
         destruct (Flight.m_status f); cbn; try done;
           exfalso; apply Hreq; auto. }
  replace (negb (bool_decide (Flight.m_status f = Flight.SCHEDULED))
           && negb (bool_decide (Flight.m_status f = Flight.ACTIVE))
           && negb (bool_decide (Flight.m_status f = Flight.EMERGENCY)))
    with false
    by (destruct Hreq as [-> | [-> | ->]]; done).
  msimpl.
  destruct (lock_live f w) as [(q & -> & Hlive) | (-> & Hnolive)].
  { apply Hfail. by intros (_ & ? & _). }
  unfold derefRunway, derefAircraft. rewrite Hr, Hp, Ha. cbn.
  pose proof (eligible_checks r a) as Hel.
  destruct (Runway.canUseForDirection (Aircraft.m_direction a) r) eqn:Hd; cbn.
  2: { apply Hfail. intros (_ & _ & _ & He). apply Hel in He. done. }
  destruct (Runway.canUseForAircraftType (Aircraft.m_type a) r) eqn:Hk; cbn.
  2: { apply Hfail. intros (_ & _ & _ & He). apply Hel in He. done. }
  unfold Runway_assignAircraft. rewrite Hr.
  destruct (decide (Runway.m_status r = Runway.AVAILABLE)) as [Hst | Hst].
  2: { unfold Runway.assignAircraft.
       rewrite (bool_decide_eq_false_2 _ Hst). cbn.
       exists false, f, w. split.
       - do 3 f_equal. destruct w as [ac rw ck]. cbn in *.
         f_equal. by apply insert_id.
       - repeat split; try done. by intros (_ & _ & ? & _). }
  rewrite (assignAircraft_available _ p r _ a Ha Hst Hd Hk). cbn.
  eexists true, _, _. split; [reflexivity |].
  split; [| split; [done |]].
  { split; [| done]. intros _. repeat split; try done. by apply Hel. }
  intros _. split; [done |]. split.
  { eexists. cbn. rewrite lookup_insert_eq. done. }
  split; [cbn; by rewrite lookup_insert_eq |].
  intros runway. unfold Flight.assignRunway. cbn.
  destruct (negb _ && negb _ && negb _); [done |].
  msimpl. unfold lock. cbn. by rewrite lookup_insert_eq.
Qed.

Lemma Flight_assignRunway_witness :
  ∃ ok f' w',
    Flight.assignRunway (Some 9) scheduledCargo worldCargo = Some (ok, f', w')
    ∧ (ok = true → occupied_by w' 9 1)
    ∧ (ok = false → f' = scheduledCargo ∧ w' = worldCargo).
Proof.
  destruct (Flight_assignRunway_succeeds_iff 9 1 scheduledCargo worldCargo
              cargoNorth (Runway.new RWY_C 0) eq_refl eq_refl eq_refl)
    as (ok & f' & w' & Heq & _ & Hfail & Hok).
  exists ok, f', w'. split; [exact Heq |].
  split; [| exact Hfail]. intros H. by apply Hok.
Defined.


Lemma Flight_assignRunway_granted
    (rp p : ptr) (f : Flight.t) (w : World) (a : Aircraft.t) (r : Runway.t) :
  may_request_runway (Flight.m_status f) → ¬ holds_live_runway f w →
  Flight.m_aircraft f = Some p → aircrafts w !! p = Some a →
  runways w !! rp = Some r → Runway.m_status r = Runway.AVAILABLE →
  eligible (Runway.m_id r) (Aircraft.m_direction a) (Aircraft.m_type a) →
  Flight.assignRunway (Some rp) f w
  = Some (true, Flight.with_assignedRunway (Some rp) f,
          mkWorld (<[p := Aircraft.assignRunway (Runway.m_id r) a]> (aircrafts w))
            (<[rp := Runway.mk (Runway.m_id r) Runway.IN_USE (Some p)
                       (int_wrap (Runway.m_usageCount r + 1))
                       (Runway.m_totalUsageTime r) (steady_clock w)]>
               (runways w))
            (steady_clock w)).
Proof.
  intros Hreq Hnolive Hp Ha Hr Hst He.
  apply eligible_checks, andb_true_iff in He as [Hd Hk].
  unfold Flight.assignRunway.
  replace (negb (bool_decide (Flight.m_status f = Flight.SCHEDULED))
           && negb (bool_decide (Flight.m_status f = Flight.ACTIVE))
           && negb (bool_decide (Flight.m_status f = Flight.EMERGENCY)))
    with false
    by (destruct Hreq as [-> | [-> | ->]]; done).
  msimpl.
  destruct (lock_live f w) as [(q & _ & Hlive) | (-> & _)]; [done |].
  unfold derefRunway, derefAircraft. rewrite Hr, Hp, Ha. cbn.
  rewrite Hd, Hk. cbn.
  unfold Runway_assignAircraft. rewrite Hr.
  by rewrite (assignAircraft_available _ p r _ a Ha Hst Hd Hk).
Qed.

Lemma releaseRunway_without_runway (f : Flight.t) (w : World) :
  ¬ holds_live_runway f w → Flight.releaseRunway f w = Some (false, f, w).
Proof.
  intros Hno. unfold Flight.releaseRunway. msimpl.
  destruct (lock_live f w) as [(q & _ & Hlive) | (-> & _)]; done.
Qed.

(** X11.  Round trip at the level of the flight.  When [assignRunway]
    is granted and the flight later calls [releaseRunway] (at clock
    reading [now2]), both calls return true; the flight is as before but
    without runway reference; the runway is Available and unoccupied with
    one more use counted and the whole seconds in between added to its
    usage time; every other runway and every other aircraft is untouched;
    a further [releaseRunway] fails and changes nothing.  The aircraft
    itself is not told about the release: it still records the runway's
    id. *)
Theorem Flight_assign_then_release
    (rp p : ptr) (f : Flight.t) (w : World) (a : Aircraft.t) (r : Runway.t)
    (now2 : Z) :
  may_request_runway (Flight.m_status f) → ¬ holds_live_runway f w →
  Flight.m_aircraft f = Some p → aircrafts w !! p = Some a →
  runways w !! rp = Some r → Runway.m_status r = Runway.AVAILABLE →
  eligible (Runway.m_id r) (Aircraft.m_direction a) (Aircraft.m_type a) →
  ∃ f1 w1 w2,
    Flight.assignRunway (Some rp) f w = Some (true, f1, w1)
    ∧ Flight.releaseRunway f1 (mkWorld (aircrafts w1) (runways w1) now2)
      = Some (true, Flight.with_assignedRunway None f, w2)
    ∧ runways w2 !! rp
      = Some (Runway.mk (Runway.m_id r) Runway.AVAILABLE None
                (int_wrap (Runway.m_usageCount r + 1))
                (Runway.m_totalUsageTime r
                 + inject_Z (Runway.seconds_between now2 (steady_clock w)))
                (steady_clock w))
    ∧ aircrafts w2 !! p = Some (Aircraft.with_runway (Some (Runway.m_id r)) a)
    ∧ (∀ q, q ≠ rp → runways w2 !! q = runways w !! q)
    ∧ (∀ q, q ≠ p → aircrafts w2 !! q = aircrafts w !! q)
    ∧ Flight.releaseRunway (Flight.with_assignedRunway None f) w2
      = Some (false, Flight.with_assignedRunway None f, w2).
Proof.
  intros Hreq Hnolive Hp Ha Hr Hst He.
  eexists _, _, _.
  split; [by apply (Flight_assignRunway_granted rp p f w a r) |].
  split.
  { erewrite (releaseRunway_by_occupant _ _ p rp);
      [| done | done | cbn; apply lookup_insert_eq | done | done].
    cbn. rewrite releaseAircraft_by_occupant by done. cbn.
    rewrite insert_insert_eq. reflexivity. }
  split; [cbn; by rewrite lookup_insert_eq |].
  split; [cbn; by rewrite lookup_insert_eq |].
  split; [intros q Hq; cbn; by rewrite lookup_insert_ne |].
  split; [intros q Hq; cbn; by rewrite lookup_insert_ne |].
  apply releaseRunway_without_runway. by intros (q & r' & ? & _).
Qed.

Lemma Flight_assign_then_release_witness :
  ∃ f1 w1 w2,
    Flight.assignRunway (Some 9) scheduledCargo worldCargo = Some (true, f1, w1)
    ∧ Flight.releaseRunway f1 (mkWorld (aircrafts w1) (runways w1) 95000000000)
      = Some (true, Flight.with_assignedRunway None scheduledCargo, w2)
    ∧ free_runway w2 9
    ∧ Aircraft.m_assignedRunway <$> aircrafts w2 !! 1 = Some (Some RWY_C).
Proof.
  destruct (Flight_assign_then_release 9 1 scheduledCargo worldCargo
              cargoNorth (Runway.new RWY_C 0) 95000000000)
    as (f1 & w1 & w2 & E1 & E2 & Hr & Ha & _);
    [by left | by intros (q & r' & ? & _) | done | done | done | done
     | by left |].
  exists f1, w1, w2. split; [exact E1 |]. split; [exact E2 |]. split.
  - eexists. split; [exact Hr |]. done.
  - exact (f_equal (fmap Aircraft.m_assignedRunway) Ha).
Defined.


(** X12.  [activate] succeeds exactly from Scheduled; a refused call
    changes nothing.  A successful call makes the flight Emergency when
    its emergency flag is set and Active otherwise, stores the activation
    time and touches no other field but the completion estimate, which
    becomes activation time plus the offset of the last plan step when the
    activation time is positive, stays as it was when the activation time
    is not positive, and is 0 for an empty plan.  A second [activate]
    fails. *)
Theorem activate_succeeds_iff_scheduled (currentTime : Q) (f : Flight.t) :
  let '(ok, f') := Flight.activate currentTime f in
  (ok = true ↔ Flight.m_status f = Flight.SCHEDULED)
  ∧ (ok = false → f' = f)
  ∧ (ok = true →
       Flight.m_status f'
       = (if Flight.m_isEmergency f then Flight.EMERGENCY else Flight.ACTIVE)
       ∧ Flight.m_activationTime f' = currentTime
       ∧ Flight.m_estimatedCompletionTime f'
         = match last (Flight.m_flightPlan f) with
           | None => 0%Q
           | Some s =>
               if Qltb 0 currentTime
               then (currentTime + Flight.relativeTimeOffset s)%Q
               else Flight.m_estimatedCompletionTime f
           end
       ∧ f' = Flight.with_estimatedCompletionTime
                (Flight.m_estimatedCompletionTime f')
                (Flight.with_activationTime currentTime
                   (Flight.with_status (Flight.m_status f') f))
       ∧ ∀ t, Flight.activate t f' = (false, f')).
Proof.
  unfold Flight.activate, Flight.isValidStatusTransition.
  destruct (Flight.m_status f) eqn:Hst; cbn;
    try (split; [split; [done | done] |]; split; [done |]; done).
  split; [done |]. split; [done |]. intros _.
  unfold Flight.calculateEstimatedCompletionTime, Flight.isLive. cbn.
  destruct (Flight.m_isEmergency f); cbn;
    destruct (last (Flight.m_flightPlan f)) as [s |]; cbn;
    try (destruct (Qltb 0 currentTime); cbn);
    repeat split; cbn; try done;
    intros t; unfold Flight.isValidStatusTransition; cbn; done.
Qed.

(** X13.  [setEmergency(false)] never changes status, plan or step index:
    its branch "no longer an emergency, revert to ACTIVE" is guarded by a
    status that the enclosing test excludes.  In a status other than
    Scheduled and Active, Emergency included, [setEmergency] changes
    nothing at all, whatever its argument: the emergency flag of an
    Emergency flight cannot be withdrawn. *)
Theorem setEmergency_cannot_revert
    (isEmergency : bool) (f : Flight.t) (w : World) :
  isEmergency = false
  ∨ (Flight.m_status f ≠ Flight.SCHEDULED ∧ Flight.m_status f ≠ Flight.ACTIVE) →
  ∃ f',
    Flight.setEmergency isEmergency f w = Some (f', w)
    ∧ Flight.m_status f' = Flight.m_status f
    ∧ Flight.m_flightPlan f' = Flight.m_flightPlan f
    ∧ Flight.m_currentPlanStep f' = Flight.m_currentPlanStep f
    ∧ Flight.m_estimatedCompletionTime f' = Flight.m_estimatedCompletionTime f
    ∧ (Flight.m_status f ≠ Flight.SCHEDULED → Flight.m_status f ≠ Flight.ACTIVE →
       f' = f).
Proof.
  intros H. unfold Flight.setEmergency.
  destruct (Flight.m_status f) eqn:Hst; cbn;
    try (exists f; repeat split; done).
  - destruct H as [-> | [? _]]; [| done]. cbn. rewrite Hst. cbn.
    eexists. split; [reflexivity |]. cbn. repeat split; done.
  - destruct H as [-> | [_ ?]]; [| done]. cbn. rewrite Hst. cbn.
    eexists. split; [reflexivity |]. cbn. repeat split; done.
Qed.

Lemma setEmergency_cannot_revert_witness :
  ∃ f',
    Flight.setEmergency false
      (Flight.with_isEmergency true (Flight.with_status Flight.EMERGENCY scheduledCargo))
      worldCargo = Some (f', worldCargo)
    ∧ Flight.m_status f' = Flight.EMERGENCY
    ∧ Flight.m_isEmergency f' = true.
Proof.
  destruct (setEmergency_cannot_revert false
              (Flight.with_isEmergency true
                 (Flight.with_status Flight.EMERGENCY scheduledCargo))
              worldCargo (or_introl eq_refl))
    as (f' & E & Hst & _ & _ & _ & Hsame).
  exists f'. split; [exact E |]. split; [exact Hst |].
  rewrite Hsame; [reflexivity | done | done].
Defined.

(** X14.  [setEmergency(true)] on a Scheduled or Active flight makes it
    Emergency, sets the flag, replaces the plan by the emergency plan of
    the aircraft's direction and puts the step index back to 0, whatever
    part of the old plan was already executed; runway reference and
    activation time are kept, and the estimate is refreshed only when the
    activation time is positive.  Afterwards [activate] fails, so a
    flight declared an emergency while still Scheduled is live with the
    activation time it was constructed with, and [setEmergency] has no
    further effect. *)
Theorem setEmergency_true_restarts_plan
    (f : Flight.t) (w : World) (p : ptr) (a : Aircraft.t) :
  Flight.m_status f = Flight.SCHEDULED ∨ Flight.m_status f = Flight.ACTIVE →
  Flight.m_aircraft f = Some p → aircrafts w !! p = Some a →
  ∃ f',
    Flight.setEmergency true f w = Some (f', w)
    ∧ Flight.m_status f' = Flight.EMERGENCY
    ∧ Flight.m_isEmergency f' = true
    ∧ Flight.m_flightPlan f' = plan_for true (Aircraft.isArrival a)
    ∧ Flight.m_currentPlanStep f' = 0
    ∧ Flight.m_assignedRunway f' = Flight.m_assignedRunway f
    ∧ Flight.m_activationTime f' = Flight.m_activationTime f
    ∧ Flight.m_estimatedCompletionTime f'
      = (if Qltb 0 (Flight.m_activationTime f)
         then (Flight.m_activationTime f
               + (if Aircraft.isArrival a then 75 else 60))%Q
         else Flight.m_estimatedCompletionTime f)
    ∧ (∀ t, Flight.activate t f' = (false, f'))
    ∧ (∀ b, Flight.setEmergency b f' w = Some (f', w)).
Proof.
  intros Hst Hp Ha.
  unfold Flight.setEmergency, Flight.createEmergencyFlightPlan, derefAircraft.
  replace (bool_decide (Flight.m_status f = Flight.SCHEDULED)
           || bool_decide (Flight.m_status f = Flight.ACTIVE)) with true
    by (destruct Hst as [-> | ->]; done).
  cbn.
  replace (negb (bool_decide (Flight.m_status f = Flight.EMERGENCY))) with true
    by (destruct Hst as [-> | ->]; done).
  cbn. msimpl. rewrite Hp, Ha. cbn.
  unfold Flight.calculateEstimatedCompletionTime, Flight.isLive.
  destruct (Aircraft.isArrival a); cbn;
    destruct (Qltb 0 (Flight.m_activationTime f)); cbn;
    (eexists; split; [reflexivity |]; cbn; repeat split; try done;
     intros b; unfold Flight.setEmergency; cbn; done).
Qed.

Lemma setEmergency_true_restarts_plan_witness :
  ∃ f',
    Flight.setEmergency true taxiingFlight worldTaxi = Some (f', worldTaxi)
    ∧ Flight.m_flightPlan f' = Flight.emergencyDeparturePlan
    ∧ Flight.m_currentPlanStep f' = 0.
Proof.
  destruct (setEmergency_true_restarts_plan taxiingFlight worldTaxi 1
              faultyTaxiOut (or_intror eq_refl) eq_refl eq_refl)
    as (f' & E & _ & _ & Hplan & Hidx & _).
  exists f'. split; [exact E |]. split; [exact Hplan | exact Hidx].
Defined.

(** X15.  [getDelay] of a Scheduled flight is the time by which the
    clock has passed the scheduled time, never negative.  Once the flight
    has been activated at a positive time the delay no longer depends on
    the clock: it is activation time minus scheduled time (negative for an
    early activation); after an activation at a time that is not positive
    it is 0. *)
Theorem getDelay_frozen_by_activation (t now : Q) (f : Flight.t) :
  Flight.m_status f = Flight.SCHEDULED →
  (0 <= Flight.getDelay now f)%Q
  ∧ Flight.getDelay now f
    = (if Qltb (Flight.m_scheduledTime f) now
       then (now - Flight.m_scheduledTime f)%Q else 0%Q)
  ∧ Flight.getDelay now (Flight.activate t f).2
    = (if Qltb 0 t then (t - Flight.m_scheduledTime f)%Q else 0%Q).
Proof.
  intros Hst.
  assert (Hd : Flight.getDelay now f
               = (if Qltb (Flight.m_scheduledTime f) now
                  then (now - Flight.m_scheduledTime f)%Q else 0%Q))
    by (unfold Flight.getDelay; by rewrite Hst).
  split; [| split; [done |]].
  - rewrite Hd.
    destruct (Qltb (Flight.m_scheduledTime f) now) eqn:E; [| done].
    apply Qltb_lt in E. lra.
  - assert (Hact :
      ∃ e s, (Flight.activate t f).2
             = Flight.with_estimatedCompletionTime e
                 (Flight.with_activationTime t (Flight.with_status s f))
             ∧ s ≠ Flight.SCHEDULED).
    { clear Hd. unfold Flight.activate, Flight.isValidStatusTransition.
      rewrite Hst. change (negb _) with false. cbv iota.
      unfold Flight.calculateEstimatedCompletionTime.
      destruct (Flight.m_isEmergency f);
        destruct (last _); try destruct (Flight.isLive _);
        try destruct (Qltb 0 _);
        eexists _, _; (split; [cbn; reflexivity | done]). }
    destruct Hact as (e & s & -> & Hs). unfold Flight.getDelay.
    change (Flight.m_status _) with s.
    rewrite bool_decide_eq_false_2 by done. done.
Qed.

Lemma getDelay_witness :
  Flight.getDelay 140 lateCargo = (140 - 100)%Q
  ∧ Flight.getDelay 500 (Flight.activate 130 lateCargo).2 = (130 - 100)%Q.
Proof.
  destruct (getDelay_frozen_by_activation 130 140 lateCargo eq_refl)
    as (_ & H1 & _).
  destruct (getDelay_frozen_by_activation 130 500 lateCargo eq_refl)
    as (_ & _ & H2).
  split; [exact H1 | exact H2].
Defined.

(** X16.  Completed, Canceled and Diverted are absorbing for the public
    operations: [activate], [complete], [cancel], [divert],
    [setEmergency] and [update] leave such a flight and every aircraft
    and runway exactly as they are, [assignRunway] is refused, and the
    flight is never ready for a next phase. *)
Theorem terminal_status_is_absorbing
    (o : flight_operation) (f : Flight.t) (w : World) :
  terminal (Flight.m_status f) →
  perform o f w = Some (f, w)
  ∧ (∀ runway, Flight.assignRunway runway f w = Some (false, f, w))
  ∧ (∀ currentTime, Flight.isReadyForNextPhase currentTime f = false).
Proof.
  intros Hterm. split; [| split].
  - destruct o; cbn;
      unfold Flight.activate, Flight.complete, Flight.cancel, Flight.divert,
        Flight.setEmergency, Flight.update, Flight.isValidStatusTransition,
        Flight.isLive;
      destruct Hterm as [-> | [-> | ->]]; cbn; done.
  - intros runway. unfold Flight.assignRunway.
    destruct Hterm as [-> | [-> | ->]]; cbn; done.
  - intros currentTime. unfold Flight.isReadyForNextPhase, Flight.isLive.
    destruct Hterm as [-> | [-> | ->]]; cbn; done.
Qed.

Lemma terminal_status_is_absorbing_witness :
  perform (Update 1 300 calmDraws) completedFlight worldAtGate
  = Some (completedFlight, worldAtGate).
Proof.
  exact (proj1 (terminal_status_is_absorbing (Update 1 300 calmDraws)
                  completedFlight worldAtGate (or_introl eq_refl))).
Defined.
